(** * jwt-flex: token extraction, verification and the framework adapters

    A shallow embedding of [src/core/extractors.ts], [src/core/token.ts],
    [src/core/errors.ts] and the four adapters under [src/middleware/], with
    the properties the specification states about them.

    JavaScript strings are modelled as Rocq strings whose characters are the
    code units 0..255 (the range Node gives to header values and request
    targets).  The two collaborators that are not part of the repository, the
    [jsonwebtoken] verification primitive and the platform's [URL] class, are
    Section variables: every general theorem holds for any behaviour of
    theirs. *)

From Stdlib Require Import String Ascii List Bool NArith Lia.
From stdpp Require Import base option list strings gmap.

Import ListNotations.

(* ===================================================================== *)
(** * JavaScript strings *)
(* ===================================================================== *)

Module JS.

(** [s.split(sep)] for a one-character separator: the pieces between the
    occurrences of [sep]; never empty ([""] splits into [[""]]). *)
Fixpoint split (sep : ascii) (s : string) : list string :=
  match s with
  | EmptyString => [EmptyString]
  | String c r =>
      if Ascii.eqb c sep then EmptyString :: split sep r
      else match split sep r with
           | h :: t => String c h :: t
           | [] => [String c EmptyString]
           end
  end.

(** [s.toLowerCase()] on code units below 256: A-Z and the Latin-1 capitals
    U+00C0..U+00DE (U+00D7, the multiplication sign, apart) move up by 32. *)
Definition lower_char (c : ascii) : ascii :=
  let n := N_of_ascii c in
  if ((65 <=? n) && (n <=? 90) || (192 <=? n) && (n <=? 222) && negb (n =? 215))%N
  then ascii_of_N (n + 32) else c.

Fixpoint toLowerCase (s : string) : string :=
  match s with
  | EmptyString => EmptyString
  | String c r => String (lower_char c) (toLowerCase r)
  end.

(** White space and line terminators of ECMAScript among the code units below
    256: TAB, LF, VT, FF, CR, SPACE and NO-BREAK SPACE. *)
Definition is_white_space (c : ascii) : bool :=
  let n := N_of_ascii c in
  ((9 <=? n) && (n <=? 13) || (n =? 32) || (n =? 160))%N.

(** The string without its longest prefix, or suffix, of characters
    satisfying [p]. *)
Fixpoint drop_start (p : ascii -> bool) (s : string) : string :=
  match s with
  | String c r => if p c then drop_start p r else s
  | EmptyString => EmptyString
  end.

Fixpoint drop_end (p : ascii -> bool) (s : string) : string :=
  match s with
  | EmptyString => EmptyString
  | String c r =>
      match drop_end p r with
      | EmptyString => if p c then EmptyString else String c EmptyString
      | r' => String c r'
      end
  end.

(** [s.trim()]. *)
Definition trim (s : string) : string := drop_end is_white_space (drop_start is_white_space s).

(** The text before the first character satisfying [p], and the text from
    that character on. *)
Fixpoint span (p : ascii -> bool) (s : string) : string * string :=
  match s with
  | EmptyString => (EmptyString, EmptyString)
  | String c r => if p c then (EmptyString, s)
                  else let '(a, b) := span p r in (String c a, b)
  end.

(** [s.startsWith(p)]. *)
Fixpoint startsWith (s p : string) {struct p} : bool :=
  match p, s with
  | EmptyString, _ => true
  | String a p', String b s' => Ascii.eqb a b && startsWith s' p'
  | String _ _, EmptyString => false
  end.

(** [s.includes(sub)]. *)
Fixpoint includes (s sub : string) : bool :=
  startsWith s sub ||
  match s with
  | EmptyString => false
  | String _ r => includes r sub
  end.

(** A character does not occur in a string. *)
Fixpoint lacks (c : ascii) (s : string) : bool :=
  match s with
  | EmptyString => true
  | String a r => negb (Ascii.eqb a c) && lacks c r
  end.

End JS.

(* ===================================================================== *)
(** * JavaScript values and exceptions *)
(* ===================================================================== *)

(** The values a property access or an extractor can yield at run time:
    [null], [undefined], a string, or some object (an array of header values,
    a function inherited from [Object.prototype], ...), named by a label. *)
Inductive value :=
| Null
| Undefined
| Str (s : string)
| Obj (label : string).

(** ToBoolean. *)
Definition truthy (v : value) : bool :=
  match v with
  | Null | Undefined => false
  | Str s => negb (String.eqb s "")
  | Obj _ => true
  end.

(** [v || null]. *)
Definition or_null (v : value) : value := if truthy v then v else Null.

(** The classes of the exceptions that occur. *)
Inductive ErrorClass :=
(* src/core/errors.ts *)
| TokenExpiredError
| InvalidTokenError
| MalformedTokenError
| NoTokenError
(* src/types/http.ts *)
| HttpError (statusCode : nat)
(* jsonwebtoken: TokenExpiredError and NotBeforeError extend JsonWebTokenError *)
| jwt_JsonWebTokenError
| jwt_TokenExpiredError
| jwt_NotBeforeError
(* any other subclass of Error (Error itself, TypeError, SyntaxError, ...),
   by the name of its constructor, which is not the name of a member of
   Object.prototype *)
| OtherError (constructor_name : string).

Record ErrorObject := mkError { error_class : ErrorClass; message : string }.

(** What a [throw] (or a rejected promise) carries: an instance of [Error],
    or any other value. *)
Inductive thrown :=
| ThrownError (e : ErrorObject)
| ThrownValue (v : value).

(** The result of running a piece of code that may throw. *)
Inductive Outcome (A : Type) :=
| Return (a : A)
| Throw (t : thrown).
Arguments Return {A} a.
Arguments Throw {A} t.

#[global] Instance Outcome_ret : MRet Outcome := fun A a => Return a.
#[global] Instance Outcome_bind : MBind Outcome := fun A B k m =>
  match m with
  | Return a => k a
  | Throw t => Throw t
  end.

(** [try { m } catch (error) { h error }]. *)
Definition try_catch {A : Type} (m : Outcome A) (h : thrown -> Outcome A) : Outcome A :=
  match m with
  | Return a => Return a
  | Throw t => h t
  end.

(** The constructors of src/core/errors.ts. *)
Definition new_TokenExpiredError : ErrorObject := mkError TokenExpiredError "Token has expired".
Definition new_InvalidTokenError : ErrorObject := mkError InvalidTokenError "Invalid token signature".
Definition new_MalformedTokenError : ErrorObject := mkError MalformedTokenError "Malformed token".
Definition new_NoTokenError : ErrorObject := mkError NoTokenError "No authorization token was found".
(** [new HttpError(statusCode, message)], src/types/http.ts. *)
Definition new_HttpError (statusCode : nat) (msg : string) : ErrorObject :=
  mkError (HttpError statusCode) msg.

(** [error.constructor.name]. *)
Definition constructor_name_of (c : ErrorClass) : string :=
  match c with
  | TokenExpiredError => "TokenExpiredError"
  | InvalidTokenError => "InvalidTokenError"
  | MalformedTokenError => "MalformedTokenError"
  | NoTokenError => "NoTokenError"
  | HttpError _ => "HttpError"
  | jwt_JsonWebTokenError => "JsonWebTokenError"
  | jwt_TokenExpiredError => "TokenExpiredError"
  | jwt_NotBeforeError => "NotBeforeError"
  | OtherError n => n
  end.

(** [error instanceof jwt.TokenExpiredError]. *)
Definition instanceof_jwt_TokenExpiredError (t : thrown) : bool :=
  match t with
  | ThrownError {| error_class := jwt_TokenExpiredError |} => true
  | _ => false
  end.

(** [error instanceof jwt.JsonWebTokenError]. *)
Definition instanceof_jwt_JsonWebTokenError (t : thrown) : bool :=
  match t with
  | ThrownError {| error_class := (jwt_JsonWebTokenError | jwt_TokenExpiredError | jwt_NotBeforeError) |} => true
  | _ => false
  end.

(* ===================================================================== *)
(** * Requests *)
(* ===================================================================== *)

(** A request is either an instance of Node's [IncomingMessage] (an Express
    request and Fastify's [request.raw] are such instances) or some other
    object with optional [headers], [query] and [cookies] members.  Node
    stores header names in lower case and gives every header the extractors
    read as one string; the members of a plain object hold what a property
    access on them yields. *)
Inductive Request :=
| IncomingMessage (url : option string) (headers : gmap string string)
| RequestLike (headers query cookies : option (gmap string value)).

(** [o?.[k]] on an optional member of a plain request object. *)
Definition optional_get (o : option (gmap string value)) (k : string) : value :=
  match o with
  | None => Undefined
  | Some m => default Undefined (m !! k)
  end.

(** Node's [message.headers] for the header lines of a request as they came
    over the wire, after Node's documentation of [message.headers]: the names
    are put in lower case; of several [authorization] or [host] lines (and
    the other single-valued headers) the first is kept; several [cookie]
    lines are joined with "; " and the lines of any other header with ", "
    ([set-cookie], which Node keeps as an array and the library never reads,
    is not told apart). *)
Definition single_valued (name : string) : bool :=
  bool_decide (name ∈ [ "age"; "authorization"; "content-length"; "content-type"; "etag";
                        "expires"; "from"; "host"; "if-modified-since";
                        "if-unmodified-since"; "last-modified"; "location";
                        "max-forwards"; "proxy-authorization"; "referer"; "retry-after";
                        "server"; "user-agent" ]).

Definition add_header (headers : gmap string string) (line : string * string)
  : gmap string string :=
  let name := JS.toLowerCase (fst line) in
  match headers !! name with
  | None => <[name := snd line]> headers
  | Some old =>
      if single_valued name then headers
      else if String.eqb name "cookie" then <[name := old +:+ "; " +:+ snd line]> headers
      else <[name := old +:+ ", " +:+ snd line]> headers
  end.

Definition Node_headers (raw : list (string * string)) : gmap string string :=
  fold_left add_header raw ∅.

(** [req.headers?.authorization]. *)
Definition headers_authorization (req : Request) : value :=
  match req with
  | IncomingMessage _ headers => from_option Str Undefined (headers !! "authorization")
  | RequestLike headers _ _ => optional_get headers "authorization"
  end.

(** The names of the members of [Object.prototype], which every object
    literal inherits. *)
Definition Object_prototype_has (k : string) : bool :=
  bool_decide (k ∈ [ "constructor"; "__proto__"; "hasOwnProperty"; "isPrototypeOf";
                     "propertyIsEnumerable"; "toLocaleString"; "toString"; "valueOf";
                     "__defineGetter__"; "__defineSetter__"; "__lookupGetter__";
                     "__lookupSetter__" ]).

(** [acc[key] = v] on an object literal, for [v] a string or [undefined]:
    the [__proto__] setter ignores such values. *)
Definition obj_set (acc : gmap string value) (key : string) (v : value) : gmap string value :=
  if String.eqb key "__proto__" then acc else <[key := v]> acc.

(** [acc[key]] on an object literal: an own property, else the member
    inherited from [Object.prototype], else [undefined]. *)
Definition obj_get (acc : gmap string value) (key : string) : value :=
  match acc !! key with
  | Some v => v
  | None => if Object_prototype_has key then Obj ("Object.prototype." +:+ key) else Undefined
  end.

(** [URLSearchParams.get]: the value of the first pair with the given name,
    or [null]. *)
Fixpoint URLSearchParams_get (params : list (string * string)) (name : string) : value :=
  match params with
  | [] => Null
  | (k, v) :: rest => if String.eqb k name then Str v else URLSearchParams_get rest name
  end.

(** A token extractor, [TokenExtractor] of src/core/types.ts: a function of
    the host program, which may return any value and may throw. *)
Definition TokenExtractor : Type := Request -> Outcome value.

Inductive Algorithm := HS256 | HS384 | HS512 | RS256 | RS384 | RS512 | ES256 | ES384 | ES512.

(** [VerifyOptions], src/core/types.ts. *)
Record VerifyOptions := mkVerifyOptions {
  vo_secret : string;
  vo_algorithms : option (list Algorithm)
}.

(** The options of an adapter ([BaseJwtOptions], src/types/middleware.ts) as
    far as verification reads them; [expiresIn] and [algorithm] only matter
    to signing. *)
Record JwtOptions := mkJwtOptions {
  secret : string;
  algorithms : option (list Algorithm);
  credentialsRequired : option bool;
  extractors : option (list TokenExtractor)
}.

(** [const { credentialsRequired = true, ...tokenOptions } = options]. *)
Definition credentialsRequired_or_default (options : JwtOptions) : bool :=
  default true (credentialsRequired options).
Definition tokenOptions (options : JwtOptions) : VerifyOptions :=
  mkVerifyOptions (secret options) (algorithms options).

(** [TokenErrorCode], src/types/middleware.ts. *)
Inductive TokenErrorCode := MISSING | EXPIRED | INVALID | MALFORMED.

Definition TokenErrorCode_value (c : TokenErrorCode) : string :=
  match c with
  | MISSING => "TOKEN_MISSING"
  | EXPIRED => "TOKEN_EXPIRED"
  | INVALID => "TOKEN_INVALID"
  | MALFORMED => "TOKEN_MALFORMED"
  end.

Record TokenError := mkTokenError { code : TokenErrorCode; error_message : string }.

(** The [errorMap] of src/middleware/node.ts and src/middleware/fastify.ts,
    keyed by the classes' names. *)
Definition errorMap : gmap string TokenError :=
  {[ "TokenExpiredError" := mkTokenError EXPIRED "Token has expired";
     "InvalidTokenError" := mkTokenError INVALID "Invalid token signature";
     "MalformedTokenError" := mkTokenError MALFORMED "Malformed token" ]}.

(** A JSON object with string members, as [res.json] receives it. *)
Definition JSON : Type := list (string * string).

(* ===================================================================== *)
(** * src/core/extractors.ts *)
(* ===================================================================== *)

(** [fromAuthHeaderAsBearerToken()]. *)
Definition fromAuthHeaderAsBearerToken : TokenExtractor := fun req =>
  match headers_authorization req with
  | Str auth =>
      let parts := JS.split " " auth in
      if (length parts =? 2) && String.eqb (JS.toLowerCase (nth 0 parts "")) "bearer"
      then Return (Str (nth 1 parts ""))
      else Return Null
  | _ => Return Null
  end.

(** The callback of the [reduce] in [fromCookie]:
    [const [key, value] = cookie.trim().split('='); acc[key] = value]. *)
Definition cookie_step (acc : gmap string value) (cookie : string) : gmap string value :=
  let parts := JS.split "=" (JS.trim cookie) in
  let key := nth 0 parts "" in
  let value := from_option Str Undefined (parts !! 1) in
  obj_set acc key value.

(** [header.split(';').reduce(..., {})]. *)
Definition parse_cookie_header (header : string) : gmap string value :=
  fold_left cookie_step (JS.split ";" header) ∅.

(** [fromCookie(cookieName)]. *)
Definition fromCookie (cookieName : string) : TokenExtractor := fun req =>
  match req with
  | IncomingMessage _ headers =>
      match headers !! "cookie" with
      | Some header => Return (or_null (obj_get (parse_cookie_header header) cookieName))
      | None => Return (or_null Undefined)
      end
  | RequestLike _ _ cookies => Return (or_null (optional_get cookies cookieName))
  end.

(** [error.message] of the value caught. *)
Definition thrown_message (t : thrown) : string :=
  match t with
  | ThrownError e => message e
  | ThrownValue _ => ""
  end.

Section Core.

(** The decoded payload of a token, opaque to the library. *)
Context {Payload : Type}.

(** [jwt.verify(token, secret, { algorithms })] of [jsonwebtoken]: the decoded
    payload, or the exception it throws. *)
Context (jwt_verify : value -> string -> list Algorithm -> Outcome Payload).

(** [new URL(input, base).searchParams] of the platform: the name/value pairs
    of the query, or the [TypeError] the constructor throws on an input it
    cannot parse. *)
Context (URL_searchParams : string -> string -> Outcome (list (string * string))).

(** [fromQueryParameter(param)]. *)
Definition fromQueryParameter (param : string) : TokenExtractor := fun req =>
  match req with
  | IncomingMessage url headers =>
      let input := match url with Some u => u | None => "" end in
      let host := default "undefined" (headers !! "host") in
      params ← URL_searchParams input ("http://" +:+ host);
      Return (URLSearchParams_get params param)
  | RequestLike _ query _ => Return (or_null (optional_get query param))
  end.

(** The loop of [extractToken]: the number of extractors it has called, and
    its outcome. *)
Fixpoint try_extractors (req : Request) (l : list TokenExtractor) : nat * Outcome value :=
  match l with
  | [] => (0, Return Null)
  | extractor :: rest =>
      match extractor req with
      | Throw t => (1, Throw t)
      | Return token =>
          if truthy token then (1, Return token)
          else let '(n, r) := try_extractors req rest in (S n, r)
      end
  end.

(** [options.extractors || [fromAuthHeaderAsBearerToken()]]: an array, even
    an empty one, is truthy. *)
Definition extractors_or_default (o : option (list TokenExtractor)) : list TokenExtractor :=
  default [fromAuthHeaderAsBearerToken] o.

(** [extractToken(req, options)], given [options.extractors]. *)
Definition extractToken (req : Request) (o : option (list TokenExtractor)) : Outcome value :=
  snd (try_extractors req (extractors_or_default o)).

(* ===================================================================== *)
(** * src/core/token.ts *)
(* ===================================================================== *)

(** The [catch] block of [verifyToken]. *)
Definition classify (error : thrown) : thrown :=
  if instanceof_jwt_TokenExpiredError error then ThrownError new_TokenExpiredError
  else if instanceof_jwt_JsonWebTokenError error then
    let msg := JS.toLowerCase (thrown_message error) in
    if JS.includes msg "signature" then ThrownError new_InvalidTokenError
    else if JS.includes msg "malformed" || JS.includes msg "invalid token"
    then ThrownError new_MalformedTokenError
    else ThrownError new_InvalidTokenError
  else error.

(** [verifyToken(token, options)]; a rejected promise is a [Throw]. *)
Definition verifyToken (token : value) (options : VerifyOptions) : Outcome Payload :=
  try_catch
    (jwt_verify token (vo_secret options) (default [HS256] (vo_algorithms options)))
    (fun error => Throw (classify error)).

(** An exception [t] arises in the steps every adapter performs: in the
    extraction, or in the verification of the token extracted. *)
Definition raised (req : Request) (options : JwtOptions) (t : thrown) : Prop :=
  extractToken req (extractors options) = Throw t \/
  exists token, extractToken req (extractors options) = Return token /\
                truthy token = true /\
                verifyToken token (tokenOptions options) = Throw t.

(* ===================================================================== *)
(** * src/middleware/node.ts *)
(* ===================================================================== *)

Record VerifyRequestResult := mkResult {
  isAuthenticated : bool;
  payload : option Payload;
  error : option TokenError
}.

(** [error instanceof Error && error.constructor.name in errorMap], and the
    entry found. *)
Definition errorMap_entry (t : thrown) : option TokenError :=
  match t with
  | ThrownError e => errorMap !! constructor_name_of (error_class e)
  | ThrownValue _ => None
  end.

(** [verifyRequest(req, options)]. *)
Definition verifyRequest (req : Request) (options : JwtOptions) : Outcome VerifyRequestResult :=
  try_catch
    (token ← extractToken req (extractors options);
     if negb (truthy token) then
       if credentialsRequired_or_default options
       then Return (mkResult false None
                      (Some (mkTokenError MISSING "No authorization token was found")))
       else Return (mkResult true None None)
     else
       payload ← verifyToken token (tokenOptions options);
       Return (mkResult true (Some payload) None))
    (fun error =>
       match errorMap_entry error with
       | Some entry => Return (mkResult false None
                                 (Some (mkTokenError (code entry) (error_message entry))))
       | None => Throw error
       end).

(* ===================================================================== *)
(** * src/middleware/express.ts *)
(* ===================================================================== *)

(** What the middleware can change: [req.user], the response, and the calls
    of the continuation [next] with their argument. *)
Record ExpressState := mkExpress {
  req_user : option Payload;
  res_statusCode : option nat;
  res_body : option JSON;
  next_calls : list (option thrown)
}.

Definition express_init : ExpressState := mkExpress None None None [].

(** [res.status(c).json(body)]. *)
Definition res_status_json (c : nat) (body : JSON) (st : ExpressState) : ExpressState :=
  mkExpress (req_user st) (Some c) (Some body) (next_calls st).

(** [next()] and [next(error)]. *)
Definition next (arg : option thrown) (st : ExpressState) : ExpressState :=
  mkExpress (req_user st) (res_statusCode st) (res_body st) (next_calls st ++ [arg]).

(** [req.user = payload]. *)
Definition set_user (p : Payload) (st : ExpressState) : ExpressState :=
  mkExpress (Some p) (res_statusCode st) (res_body st) (next_calls st).

(** The handler [expressMiddleware(options)] returns, run on [req] from the
    state [st]. *)
Definition expressMiddleware (options : JwtOptions) (req : Request) (st : ExpressState)
  : ExpressState :=
  match
    (token ← extractToken req (extractors options);
     if negb (truthy token) && credentialsRequired_or_default options then
       Return (res_status_json 401 [("error", message new_NoTokenError)] st)
     else if negb (truthy token) then
       Return (next None st)
     else
       payload ← verifyToken token (tokenOptions options);
       Return (next None (set_user payload st)))
  with
  | Return st' => st'
  | Throw (ThrownError e) => res_status_json 401 [("error", message e)] st
  | Throw error => next (Some error) st
  end.

(* ===================================================================== *)
(** * src/middleware/fastify.ts *)
(* ===================================================================== *)

(** The [onRequest] hook of [jwtPlugin], run on [request.raw]: the value of
    [request.user] when the hook returns ([None] for the decorated [null]),
    or the exception it throws. *)
Definition fastify_onRequest (options : JwtOptions) (raw : Request) : Outcome (option Payload) :=
  try_catch
    (token ← extractToken raw (extractors options);
     if negb (truthy token) then
       if credentialsRequired_or_default options
       then Throw (ThrownError (new_HttpError 401 "No authorization token was found"))
       else Return None
     else
       payload ← verifyToken token (tokenOptions options);
       Return (Some payload))
    (fun error =>
       match errorMap_entry error with
       | Some entry => Throw (ThrownError (new_HttpError 401 (error_message entry)))
       | None => Throw error
       end).

(* ===================================================================== *)
(** * src/middleware/nest.ts *)
(* ===================================================================== *)

(** [JwtAuthGuard.canActivate] on the request of the execution context: the
    boolean it resolves to with the value of [request.user], or the exception
    it throws. *)
Definition canActivate (options : JwtOptions) (request : Request)
  : Outcome (bool * option Payload) :=
  try_catch
    (token ← extractToken request (extractors options);
     if negb (truthy token) && credentialsRequired_or_default options then
       Throw (ThrownError new_NoTokenError)
     else if negb (truthy token) then
       Return (true, None)
     else
       payload ← verifyToken token (tokenOptions options);
       Return (true, Some payload))
    (fun error =>
       match error with
       | ThrownError _ => Throw error
       | ThrownValue _ => Throw (ThrownError (mkError (OtherError "Error") "Unknown error"))
       end).

End Core.

(* ===================================================================== *)
(** * The platform's URL class on the inputs of [fromQueryParameter] *)
(* ===================================================================== *)

(** A model of [new URL(input, "http://" + host).searchParams] after the
    WHATWG URL Standard, used to run the extractors on concrete requests.  It
    follows the standard's parser for an [http] base: the input is stripped of
    leading and trailing C0 controls and spaces and of tabs and newlines; a
    reference without a scheme is resolved against the base; an authority
    (after [//]) must have a host, and a host must be free of forbidden code
    points; the query is the text between the first [?] and the first [#];
    its pairs are split at [&] and at the first [=], with [+] read as a space
    and percent escapes decoded.  The host of an [http] URL is percent-decoded
    and put in lower case before it is checked, and is parsed as an IPv4
    address when its last label is a number; a host in brackets is parsed as
    an IPv6 address.  Outside the model is what needs Unicode tables:
    internationalised names (a host with a code unit above 0x7F, as written or
    percent-decoded, or with a label that starts with [xn--], is checked like
    any other name), and escapes of bytes above 0x7F in the query (left as
    written). *)
Module WHATWG.

Definition code (c : ascii) : N := N_of_ascii c.

Definition is_c0_control_or_space (c : ascii) : bool := (code c <=? 32)%N.
Definition is_tab_or_newline (c : ascii) : bool :=
  ((code c =? 9) || (code c =? 10) || (code c =? 13))%N.

Fixpoint remove (p : ascii -> bool) (s : string) : string :=
  match s with
  | EmptyString => EmptyString
  | String c r => if p c then remove p r else String c (remove p r)
  end.

Definition preprocess (s : string) : string :=
  remove is_tab_or_newline (JS.drop_end is_c0_control_or_space (JS.drop_start is_c0_control_or_space s)).

Definition is_char (x : ascii) (c : ascii) : bool := Ascii.eqb c x.
Definition is_slash (c : ascii) : bool := is_char "/" c || is_char "\" c.
Definition is_alpha (c : ascii) : bool :=
  ((65 <=? code c) && (code c <=? 90) || (97 <=? code c) && (code c <=? 122))%N.
Definition is_digit (c : ascii) : bool := ((48 <=? code c) && (code c <=? 57))%N.

Fixpoint all_chars (p : ascii -> bool) (s : string) : bool :=
  match s with
  | EmptyString => true
  | String c r => p c && all_chars p r
  end.

(** Forbidden host code points, and the further forbidden domain code
    points (C0 controls, [%] and DEL). *)
Definition forbidden_host (c : ascii) : bool :=
  bool_decide (c ∈ [ "000"; "009"; "010"; "013"; " "; "#"; "/"; ":"; "<"; ">";
                     "?"; "@"; "["; "\"; "]"; "^"; "|" ]%char).
Definition forbidden_domain (c : ascii) : bool :=
  forbidden_host c || (code c <? 32)%N || is_char "%" c || (code c =? 127)%N.

Fixpoint decimal_value (s : string) (acc : N) : N :=
  match s with
  | EmptyString => acc
  | String c r => decimal_value r (acc * 10 + (code c - 48))%N
  end.

Definition hex_value (c : ascii) : option N :=
  if is_digit c then Some (code c - 48)%N
  else if ((65 <=? code c) && (code c <=? 70))%N then Some (code c - 55)%N
  else if ((97 <=? code c) && (code c <=? 102))%N then Some (code c - 87)%N
  else None.

(** Percent decoding: [%] and two hexadecimal digits are the byte they
    write. *)
Fixpoint percent_decode (s : string) : string :=
  match s with
  | EmptyString => EmptyString
  | String c r =>
      if is_char "%" c then
        match r with
        | String a (String b r') =>
            match hex_value a, hex_value b with
            | Some x, Some y => String (ascii_of_N (x * 16 + y)) (percent_decode r')
            | _, _ => String c (percent_decode r)
            end
        | _ => String c (percent_decode r)
        end
      else String c (percent_decode r)
  end.

(** The value of a text of digits of the radix, or [None]. *)
Fixpoint number_value (radix : N) (s : string) (acc : N) : option N :=
  match s with
  | EmptyString => Some acc
  | String c r =>
      match hex_value c with
      | Some v => if (v <? radix)%N then number_value radix r (acc * radix + v)%N else None
      | None => None
      end
  end.

(** The IPv4 number parser: hexadecimal after [0x], octal after another
    leading [0], decimal otherwise. *)
Definition ipv4_number (s : string) : option N :=
  match s with
  | EmptyString => None
  | String c EmptyString => number_value 10 s 0
  | String c (String x r) =>
      if is_char "0" c then
        if is_char "x" x || is_char "X" x then number_value 16 r 0
        else number_value 8 (String x r) 0
      else number_value 10 s 0
  end.

(** The parts between the dots, without an empty last part when there is
    another part. *)
Definition dotted_parts (h : string) : list string :=
  let parts := JS.split "." h in
  match last parts with
  | Some EmptyString => if (1 <? length parts)%nat then removelast parts else parts
  | _ => parts
  end.

(** The ends-in-a-number checker. *)
Definition ends_in_number (h : string) : bool :=
  match last (dotted_parts h) with
  | Some l =>
      negb (String.eqb l "") && all_chars is_digit l ||
      match ipv4_number l with Some _ => true | None => false end
  | None => false
  end.

(** The IPv4 parser: at most four numbers, each but the last below 256, and
    the last below 256 to the power of the places it fills. *)
Definition valid_ipv4 (h : string) : bool :=
  let parts := dotted_parts h in
  (length parts <=? 4)%nat &&
  match mapM ipv4_number parts with
  | Some numbers =>
      forallb (fun n => (n <=? 255)%N) (removelast numbers) &&
      match last numbers with
      | Some n => (n <? 256 ^ (5 - N.of_nat (length numbers)))%N
      | None => false
      end
  | None => false
  end.

(** The dotted decimal end of an IPv6 address: four numbers up to 255,
    without a leading zero. *)
Definition valid_ipv4_in_ipv6 (s : string) : bool :=
  let parts := JS.split "." s in
  (length parts =? 4)%nat &&
  forallb (fun p => negb (String.eqb p "") && all_chars is_digit p &&
                    match p with
                    | String c (String _ _) => negb (is_char "0" c)
                    | _ => true
                    end &&
                    (decimal_value p 0 <=? 255)%N) parts.

(** The number of hexadecimal digits, up to [n], at the start of [s], and
    the text after them. *)
Fixpoint take_hex (n : nat) (s : string) : nat * string :=
  match n, s with
  | S n', String c r =>
      match hex_value c with
      | Some _ => let '(k, t) := take_hex n' r in (S k, t)
      | None => (0, s)
      end
  | _, _ => (0, s)
  end.

(** The main loop of the IPv6 parser, from the piece [pieceIndex], with
    [compress] telling whether [::] has been seen. *)
Fixpoint ipv6_pieces (fuel : nat) (s : string) (pieceIndex : nat) (compress : bool) : bool :=
  match fuel with
  | O => false
  | S fuel =>
      match s with
      | EmptyString => compress || (pieceIndex =? 8)
      | String c r =>
          if pieceIndex =? 8 then false
          else if is_char ":" c then
            if compress then false else ipv6_pieces fuel r (S pieceIndex) true
          else
            let '(len, rest) := take_hex 4 s in
            if len =? 0 then false
            else
              match rest with
              | EmptyString => compress || (S pieceIndex =? 8)
              | String d r' =>
                  if is_char "." d then
                    (pieceIndex <=? 6) && valid_ipv4_in_ipv6 s &&
                    (compress || (pieceIndex + 2 =? 8))
                  else if is_char ":" d then
                    if String.eqb r' "" then false
                    else ipv6_pieces fuel r' (S pieceIndex) compress
                  else false
              end
      end
  end.

(** The IPv6 parser on the text between the brackets. *)
Definition valid_ipv6 (s : string) : bool :=
  match s with
  | String c r =>
      if is_char ":" c then
        match r with
        | String d r' => is_char ":" d && ipv6_pieces (S (String.length r')) r' 1 true
        | EmptyString => false
        end
      else ipv6_pieces (S (String.length s)) s 0 false
  | EmptyString => false
  end.

(** The host of a special scheme that is not in brackets: percent-decoded
    and in lower case it is not empty, has no forbidden domain code point,
    and is an IPv4 address if it ends in a number. *)
Definition valid_domain (h : string) : bool :=
  let domain := JS.toLowerCase (percent_decode h) in
  negb (String.eqb domain "") &&
  all_chars (fun c => negb (forbidden_domain c)) domain &&
  (if ends_in_number domain then valid_ipv4 domain else true).

(** Host parsing: [true] when the host is accepted. *)
Definition valid_host (special : bool) (h : string) : bool :=
  match h with
  | EmptyString => negb special
  | String c r =>
      if is_char "[" c then
        match String.rev r with
        | String d inner => is_char "]" d && valid_ipv6 (String.rev inner)
        | EmptyString => false
        end
      else if special then valid_domain h
      else all_chars (fun c => negb (forbidden_host c)) h
  end.

(** The text after the last [@], and whether there was one. *)
Fixpoint after_last_at (s : string) : string * bool :=
  match s with
  | EmptyString => (EmptyString, false)
  | String c r =>
      let '(t, seen) := after_last_at r in
      if seen then (t, true)
      else if is_char "@" c then (r, true) else (s, false)
  end.

(** The host and the port text of [host:port]; the colon of a bracketed
    literal does not count. *)
Definition host_and_port (hp : string) : string * option string :=
  match hp with
  | String "[" _ =>
      let '(h, rest) := JS.span (is_char "]") hp in
      match rest with
      | String _ (String ":" p) => (h +:+ "]", Some p)
      | String _ EmptyString => (h +:+ "]", None)
      | _ => (hp, None)
      end
  | _ =>
      let '(h, rest) := JS.span (is_char ":") hp in
      match rest with
      | String _ p => (h, Some p)
      | EmptyString => (h, None)
      end
  end.

(** The authority, host and port states: the text after the authority, or
    [None] for a failure. *)
Definition parse_authority (special : bool) (s : string) : option string :=
  let '(authority, rest) :=
    JS.span (fun c => is_char "/" c || is_char "?" c || is_char "#" c ||
                   (special && is_char "\" c)) s in
  let '(hp, at_seen) := after_last_at authority in
  if at_seen && String.eqb hp "" then None
  else
    let '(h, port) := host_and_port hp in
    if negb (valid_host special h) then None
    else if (match port with Some _ => String.eqb h "" | None => false end) then None
    else match port with
         | Some p =>
             if all_chars is_digit p && (decimal_value p 0 <=? 65535)%N then Some rest else None
         | None => Some rest
         end.

(** The query of what follows the authority or starts the path: the text
    after the first [?] up to the first [#], if any. *)
Definition query_of (s : string) : option string :=
  let '(before_fragment, _) := JS.span (is_char "#") s in
  match JS.span (is_char "?") before_fragment with
  | (_, String _ q) => Some q
  | (_, EmptyString) => None
  end.

(** A scheme followed by [:], in lower case, with the rest of the input. *)
Definition scheme_of (s : string) : option (string * string) :=
  match s with
  | String c _ =>
      if is_alpha c then
        let '(sch, rest) :=
          JS.span (fun c => negb (is_alpha c || is_digit c || is_char "+" c ||
                               is_char "-" c || is_char "." c)) s in
        match rest with
        | String ":" r => Some (JS.toLowerCase sch, r)
        | _ => None
        end
      else None
  | EmptyString => None
  end.

(** Percent decoding of a name or a value of the query, with [+] read as a
    space first. *)
Fixpoint form_decode (s : string) : string :=
  match s with
  | EmptyString => EmptyString
  | String c r =>
      let plain := String (if is_char "+" c then " "%char else c) (form_decode r) in
      if is_char "%" c then
        match r with
        | String a (String b r') =>
            match hex_value a, hex_value b with
            | Some x, Some y =>
                if (x * 16 + y <? 128)%N then String (ascii_of_N (x * 16 + y)) (form_decode r')
                else plain
            | _, _ => plain
            end
        | _ => plain
        end
      else plain
  end.

(** The [application/x-www-form-urlencoded] parser. *)
Definition parse_urlencoded (q : string) : list (string * string) :=
  flat_map
    (fun piece =>
       if String.eqb piece "" then []
       else let '(n, rest) := JS.span (is_char "=") piece in
            [(form_decode n, form_decode (match rest with String _ v => v | EmptyString => "" end))])
    (JS.split "&" q).

Definition Invalid_URL : thrown := ThrownError (mkError (OtherError "TypeError") "Invalid URL").

(** A reference without a scheme, resolved against an [http] base whose
    query is [base_query]: the query of the result, or a failure. *)
Definition relative_query (base_query : option string) (r : string) : option (option string) :=
  match r with
  | EmptyString => Some base_query
  | String c r' =>
      if is_slash c then
        match r' with
        | String d _ =>
            if is_slash d then query_of <$> parse_authority true (JS.drop_start is_slash r)
            else Some (query_of r)
        | EmptyString => Some None
        end
      else if is_char "#" c then Some base_query
      else Some (query_of r)
  end.

Definition is_special (scheme : string) : bool :=
  bool_decide (scheme ∈ ["http"; "https"; "ws"; "wss"; "ftp"]).

Definition is_windows_drive_letter (s : string) : bool :=
  match s with
  | String c (String d EmptyString) => is_alpha c && (is_char ":" d || is_char "|" d)
  | _ => false
  end.

(** What follows [file:]: after two slashes a host, unless the text up to
    the next delimiter is empty or a drive letter; a path otherwise. *)
Definition file_query (r : string) : option (option string) :=
  match r with
  | String c (String d a) =>
      if is_slash c && is_slash d then
        let '(buffer, rest) :=
          JS.span (fun c => is_slash c || is_char "?" c || is_char "#" c) a in
        if is_windows_drive_letter buffer || String.eqb buffer "" then Some (query_of a)
        else if valid_host true buffer then Some (query_of rest)
        else None
      else Some (query_of r)
  | _ => Some (query_of r)
  end.

(** [new URL(input, base).searchParams]. *)
Definition URL_searchParams (input base : string) : Outcome (list (string * string)) :=
  match scheme_of (preprocess base) with
  | Some ("http", b) =>
      match parse_authority true (JS.drop_start is_slash b) with
      | None => Throw Invalid_URL
      | Some base_rest =>
          let input := preprocess input in
          let result :=
            match scheme_of input with
            | Some (scheme, r) =>
                if String.eqb scheme "http" then relative_query (query_of base_rest) r
                else if is_special scheme
                then query_of <$> parse_authority true (JS.drop_start is_slash r)
                else if String.eqb scheme "file" then file_query r
                else match r with
                     | String "/" (String "/" a) => query_of <$> parse_authority false a
                     | _ => Some (query_of r)
                     end
            | None => relative_query (query_of base_rest) input
            end in
          match result with
          | None => Throw Invalid_URL
          | Some q => Return (parse_urlencoded (default "" q))
          end
      end
  | _ => Throw Invalid_URL
  end.

End WHATWG.

(* ===================================================================== *)
(** * src/core/token.ts: signing, and the decorator of src/middleware/nest.ts *)
(* ===================================================================== *)

(** [expiresIn]: a duration such as ['1h'], or a number of seconds. *)
Inductive ExpiresIn :=
| Duration (s : string)
| Seconds (n : N).

(** The options of [signToken] ([JwtOptions] of src/core/types.ts; the
    adapters' options above extend them). *)
Record SignOptions := mkSignOptions {
  so_secret : string;
  so_expiresIn : option ExpiresIn;
  so_algorithm : option Algorithm
}.

(** [new Error(msg)]. *)
Definition new_Error (msg : string) : ErrorObject := mkError (OtherError "Error") msg.



Section Signing.

Context {Payload : Type}.

(** [jwt.sign(payload, secret, { expiresIn, algorithm })] of [jsonwebtoken]:
    the token, or the exception it throws. *)
Context (jwt_sign : Payload -> string -> ExpiresIn -> Algorithm -> Outcome string).
Context (jwt_verify : value -> string -> list Algorithm -> Outcome Payload).

(** [signToken(payload, options)]. *)
Definition signToken (payload : Payload) (options : SignOptions) : Outcome string :=
  try_catch
    (jwt_sign payload (so_secret options)
       (default (Duration "1h") (so_expiresIn options))
       (default HS256 (so_algorithm options)))
    (fun error =>
       match error with
       | ThrownError e => Throw (ThrownError (new_Error ("Failed to sign token: " +:+ message e)))
       | ThrownValue _ => Throw error
       end).

(** A handler of a controller: it receives the execution context, here the
    request and the value of [request.user], and returns or throws. *)
Context {Result : Type}.
Definition Handler : Type := Request -> option Payload -> Outcome Result.

(** [UseJwtAuth(options)] as a method decorator: the function that replaces
    [descriptor.value]. *)
Definition UseJwtAuth_method (options : JwtOptions) (originalMethod : Handler)
    (request : Request) : Outcome Result :=
  activated ← canActivate jwt_verify options request;
  originalMethod request (snd activated).


(** The primitive accepts, with payload [p], a token that the extractors find
    in the request. *)
Definition verified (req : Request) (options : JwtOptions) (p : Payload) : Prop :=
  exists token, extractToken req (extractors options) = Return token /\
                truthy token = true /\
                jwt_verify token (secret options) (default [HS256] (algorithms options)) = Return p.

End Signing.

(** [options] with [credentialsRequired] set to [c]. *)
Definition with_credentialsRequired (c : option bool) (options : JwtOptions) : JwtOptions :=
  mkJwtOptions (secret options) (algorithms options) c (extractors options).

(** The key and the value [fromCookie] takes from a segment of the cookie
    header: the first and the second piece of the trimmed segment split at
    [=]. *)
Definition segment_key (segment : string) : string :=
  nth 0 (JS.split "=" (JS.trim segment)) "".
Definition segment_value (segment : string) : value :=
  from_option Str Undefined (JS.split "=" (JS.trim segment) !! 1).

(** The last segment with the given key. *)
Definition last_segment_with_key (key : string) (segments : list string) : option string :=
  last (filter (fun segment => segment_key segment = key) segments).

(* ===================================================================== *)
(** * Test doubles and reference definitions *)
(* ===================================================================== *)

(** The stand-in for [jwt.verify] that tests/core/token.test.ts installs with
    [jest.spyOn(jwt, 'verify').mockImplementation(...)]: it ignores its
    arguments and returns, or throws, what the test fixes. *)
Definition mock_verify {Payload : Type} (result : Outcome Payload)
  : value -> string -> list Algorithm -> Outcome Payload :=
  fun _ _ _ => result.

(** [new Error('Unknown error')], thrown by the mock in the test "should
    handle unknown jwt errors". *)
Definition Unknown_error : thrown := ThrownError (mkError (OtherError "Error") "Unknown error").

(** [new jwt.JsonWebTokenError(msg)] and [new jwt.TokenExpiredError(msg, date)]. *)
Definition new_jwt_JsonWebTokenError (msg : string) : thrown :=
  ThrownError (mkError jwt_JsonWebTokenError msg).
Definition new_jwt_TokenExpiredError (msg : string) : thrown :=
  ThrownError (mkError jwt_TokenExpiredError msg).

(** The payload of the test suites, [{ userId: 1, role: 'admin' }]. *)
Definition test_payload : JSON := [("userId", "1"); ("role", "admin")].

(** The options of the test suites, [{ secret }]. *)
Definition test_options : JwtOptions := mkJwtOptions "test-secret" None None None.

(** [mockRequest({ authorization: `Bearer ${token}` })] of
    tests/middleware/express.test.ts: a plain object with headers only. *)
Definition bearer_request (token : string) : Request :=
  RequestLike (Some {[ "authorization" := Str ("Bearer " +:+ token) ]}) None None.

(** The stand-in for [jwt.sign] of tests/core/token.test.ts. *)
Definition mock_sign {Payload : Type} (result : Outcome string)
  : Payload -> string -> ExpiresIn -> Algorithm -> Outcome string :=
  fun _ _ _ _ => result.

(** A pair of stand-ins for the primitive that round-trips: signing puts
    "t." before the payload text, and verification takes it off again; like
    [jsonwebtoken] it rejects the empty token with "jwt must be provided" and
    any other text with "jwt malformed". *)
Definition toy_sign : string -> string -> ExpiresIn -> Algorithm -> Outcome string :=
  fun payload _ _ _ => Return ("t." +:+ payload).
Definition toy_verify : value -> string -> list Algorithm -> Outcome string :=
  fun token _ _ =>
    match token with
    | Str EmptyString => Throw (new_jwt_JsonWebTokenError "jwt must be provided")
    | Str (String "t" (String "." payload)) => Return payload
    | Str _ => Throw (new_jwt_JsonWebTokenError "jwt malformed")
    | _ => Throw (new_jwt_JsonWebTokenError "jwt must be a string")
    end.

(** A response body has a member with the given value. *)
Definition json_has_value (body : JSON) (v : string) : bool :=
  existsb (fun m => String.eqb (snd m) v) body.

(** The cookie parsing the specification words: split on [;], trim each
    segment, split it once at its first [=] into a key and a value, skip a
    segment without [=], let the last occurrence of a key win, and return the
    requested key's value. *)
Definition spec_cookie_pair (segment : string) : option (string * string) :=
  match JS.span (Ascii.eqb "=") (JS.trim segment) with
  | (key, String _ v) => Some (key, v)
  | (_, EmptyString) => None
  end.

Definition spec_parse_cookie_header (header : string) : gmap string string :=
  fold_left
    (fun acc segment =>
       match spec_cookie_pair segment with
       | Some (key, v) => <[key := v]> acc
       | None => acc
       end)
    (JS.split ";" header) ∅.

Definition spec_fromCookie (cookieName : string) (header : string) : value :=
  from_option Str Null (spec_parse_cookie_header header !! cookieName).

(** The primitive reports expiry; it fails with one of its own error classes. *)
Definition reports_expiry (error : thrown) : Prop :=
  instanceof_jwt_TokenExpiredError error = true.
Definition jwt_error (error : thrown) : Prop :=
  instanceof_jwt_JsonWebTokenError error = true.

(** An extractor finds nothing in a request: it returns a falsy value. *)
Definition finds_nothing (req : Request) (e : TokenExtractor) : Prop :=
  exists v, e req = Return v /\ truthy v = false.


(** Unfolds an adapter down to its extraction and verification steps. *)
Ltac run_adapter :=
  unfold verifyRequest, expressMiddleware, fastify_onRequest, canActivate,
    try_catch, mbind, Outcome_bind, credentialsRequired_or_default.

(** The accumulator of [fromCookie] and the mapping of the specified parsing
    hold the same pairs, the key [__proto__] apart. *)
Definition same_pairs (acc : gmap string value) (spec_acc : gmap string string) : Prop :=
  forall k, k <> "__proto__" -> acc !! k = Str <$> spec_acc !! k.

Ltac express_records :=
  cbv [res_status_json next set_user express_init req_user res_statusCode res_body
       next_calls app].

Ltac by_cases :=
  repeat (intros; match goal with
                  | |- _ /\ _ => split
                  | |- _ <-> _ => split
                  | |- _ <> _ => intros ?
                  end);
  intros; simplify_eq/=; try reflexivity; try assumption.

(** Joining pieces with a separator, the inverse of [JS.split]. *)
Fixpoint join (sep : ascii) (l : list string) : string :=
  match l with
  | [] => EmptyString
  | [x] => x
  | x :: rest => x +:+ String sep (join sep rest)
  end.

(** [s] contains [sub]. *)
Definition contains (s sub : string) : Prop :=
  exists pre post, s = pre +:+ sub +:+ post.

(** The message of a failure of the primitive mentions [w]: its lower-case
    form, which [verifyToken] inspects, contains [w]. *)
Definition mentions (error : thrown) (w : string) : Prop :=
  contains (JS.toLowerCase (thrown_message error)) w.

(* ===================================================================== *)
(** * Properties of the string operations *)
(* ===================================================================== *)

Section StringFacts.

Local Open Scope string_scope.

Lemma append_cons (c : ascii) (s t : string) : String c s ++ t = String c (s ++ t).
Proof. reflexivity. Qed.

Lemma append_nil_l (t : string) : "" ++ t = t.
Proof. reflexivity. Qed.

Lemma startsWith_prefix (s p : string) :
  JS.startsWith s p = true <-> exists post, s = p ++ post.
Proof.
  revert s. induction p as [|a p IH]; intros s; simpl.
  - split; [intros _; now exists s | reflexivity].
  - destruct s as [|b s].
    + split; [discriminate | intros [post H]; discriminate].
    + rewrite andb_true_iff, Ascii.eqb_eq, IH. split.
      * intros [-> [post ->]]. now exists post.
      * intros [post H]. rewrite append_cons in H. injection H as -> ->.
        split; [reflexivity | now exists post].
Qed.

Lemma includes_contains (s sub : string) :
  JS.includes s sub = true <-> contains s sub.
Proof.
  unfold contains. induction s as [|c s IH].
  - simpl. rewrite orb_false_r, startsWith_prefix. split.
    + intros [post H]. now exists "", post.
    + intros [pre [post H]]. destruct pre; [now exists post | discriminate].
  - cbn [JS.includes]. rewrite orb_true_iff, startsWith_prefix, IH. split.
    + intros [[post H] | [pre [post H]]].
      * now exists "", post.
      * exists (String c pre), post. rewrite append_cons. now rewrite H.
    + intros [pre [post H]]. destruct pre as [|x pre].
      * left. now exists post.
      * right. rewrite append_cons in H. injection H as _ H. now exists pre, post.
Qed.

Lemma split_not_nil (sep : ascii) (s : string) : JS.split sep s <> [].
Proof.
  destruct s as [|c s]; simpl; [discriminate |].
  destruct (Ascii.eqb c sep); [discriminate |].
  destruct (JS.split sep s); discriminate.
Qed.

Lemma split_lacks (sep : ascii) (a : string) :
  JS.lacks sep a = true -> JS.split sep a = [a].
Proof.
  induction a as [|c a IH]; simpl; [reflexivity |].
  rewrite andb_true_iff, negb_true_iff. intros [Hc Ha].
  now rewrite Hc, (IH Ha).
Qed.

Lemma split_app (sep : ascii) (a r : string) :
  JS.lacks sep a = true -> JS.split sep (a ++ String sep r) = a :: JS.split sep r.
Proof.
  induction a as [|c a IH]; simpl.
  - intros _. change ("" ++ String sep r) with (String sep r).
    simpl. now rewrite Ascii.eqb_refl.
  - rewrite andb_true_iff, negb_true_iff. intros [Hc Ha].
    change (String c a ++ String sep r) with (String c (a ++ String sep r)).
    simpl. now rewrite Hc, (IH Ha).
Qed.

Lemma split_pieces_lack (sep : ascii) (s : string) :
  Forall (fun x => JS.lacks sep x = true) (JS.split sep s).
Proof.
  induction s as [|c s IH]; simpl.
  - now constructor.
  - destruct (Ascii.eqb c sep) eqn:E.
    + now constructor.
    + destruct (JS.split sep s) as [|h t].
      * constructor; [simpl; now rewrite E | constructor].
      * inversion IH; subst. constructor; [simpl; now rewrite E | assumption].
Qed.

Lemma join_split (sep : ascii) (s : string) : join sep (JS.split sep s) = s.
Proof.
  induction s as [|c s IH]; simpl; [reflexivity |].
  pose proof (split_not_nil sep s) as Hn.
  destruct (Ascii.eqb c sep) eqn:E.
  - apply Ascii.eqb_eq in E. subst c.
    destruct (JS.split sep s) as [|h t]; [congruence |].
    cbn [join] in *. rewrite append_nil_l. now rewrite IH.
  - destruct (JS.split sep s) as [|h t]; [congruence |].
    destruct t as [|h' t]; cbn [join] in *; [now rewrite IH |].
    rewrite append_cons. now rewrite IH.
Qed.

(** The value splits into exactly two pieces iff it is two separator-free
    pieces around one separator. *)
Lemma split_two (sep : ascii) (s a b : string) :
  JS.split sep s = [a; b] <->
  s = a ++ String sep b /\ JS.lacks sep a = true /\ JS.lacks sep b = true.
Proof.
  split.
  - intros H. pose proof (join_split sep s) as J. pose proof (split_pieces_lack sep s) as F.
    rewrite H in J, F. cbn [join] in J.
    inversion F as [|? ? Ha F']; subst. inversion F' as [|? ? Hb _]; subst.
    split; [reflexivity | split; assumption].
  - intros (-> & Ha & Hb). rewrite (split_app _ _ _ Ha). now rewrite (split_lacks _ _ Hb).
Qed.

End StringFacts.

(* ===================================================================== *)
(** * Properties of the library *)
(* ===================================================================== *)

Section Properties.

Context {Payload : Type}.
Context (jwt_verify : value -> string -> list Algorithm -> Outcome Payload).
Context (URL_searchParams : string -> string -> Outcome (list (string * string))).

(** ** Verification *)

Lemma not_true_false (b : bool) : b <> true -> b = false.
Proof. now destruct b. Qed.

Lemma includes_false (s w : string) : ~ contains s w -> JS.includes s w = false.
Proof. intros H. apply not_true_false. now rewrite includes_contains. Qed.

(** C1. When the primitive fails, [verifyToken] rejects by this precedence:
    with [TokenExpiredError] if the primitive reports expiry; else, for a
    failure of the primitive's own [JsonWebTokenError] kinds, with
    [InvalidTokenError] if the message mentions "signature", else with
    [MalformedTokenError] if it mentions "malformed" or "invalid token", else
    with [InvalidTokenError]; any other exception is re-thrown unchanged.  A
    failure of the primitive's own kinds thus ends in exactly one of the three
    classified errors.  The message is put in lower case before it is
    searched; for a message already in lower case, as those of [jsonwebtoken]
    are, "mentions" is plain containment. *)
Theorem verifyToken_classifies_failure (token : value) (options : VerifyOptions) (error : thrown) :
  jwt_verify token (vo_secret options) (default [HS256] (vo_algorithms options)) = Throw error ->
  (reports_expiry error ->
     verifyToken jwt_verify token options = Throw (ThrownError new_TokenExpiredError)) /\
  (~ reports_expiry error -> jwt_error error -> mentions error "signature" ->
     verifyToken jwt_verify token options = Throw (ThrownError new_InvalidTokenError)) /\
  (~ reports_expiry error -> jwt_error error -> ~ mentions error "signature" ->
   mentions error "malformed" \/ mentions error "invalid token" ->
     verifyToken jwt_verify token options = Throw (ThrownError new_MalformedTokenError)) /\
  (~ reports_expiry error -> jwt_error error -> ~ mentions error "signature" ->
   ~ mentions error "malformed" -> ~ mentions error "invalid token" ->
     verifyToken jwt_verify token options = Throw (ThrownError new_InvalidTokenError)) /\
  (~ jwt_error error ->
     verifyToken jwt_verify token options = Throw error) /\
  (jwt_error error ->
     exists kind, kind ∈ [new_TokenExpiredError; new_InvalidTokenError; new_MalformedTokenError] /\
                  verifyToken jwt_verify token options = Throw (ThrownError kind)) /\
  (JS.toLowerCase (thrown_message error) = thrown_message error ->
     forall w, mentions error w <-> contains (thrown_message error) w).
Proof.
  intros Hfail. unfold verifyToken, try_catch. rewrite Hfail.
  unfold classify, reports_expiry, jwt_error, mentions.
  repeat apply conj.
  - intros ->. reflexivity.
  - intros He Hj Hs. apply not_true_false in He. rewrite He, Hj.
    apply includes_contains in Hs. now rewrite Hs.
  - intros He Hj Hs Hm. apply not_true_false in He. rewrite He, Hj.
    rewrite (includes_false _ _ Hs).
    destruct Hm as [Hm | Hm]; apply includes_contains in Hm; rewrite Hm;
      [reflexivity | now rewrite orb_true_r].
  - intros He Hj Hs Hm Hi. apply not_true_false in He. rewrite He, Hj.
    now rewrite (includes_false _ _ Hs), (includes_false _ _ Hm), (includes_false _ _ Hi).
  - intros Hj. apply not_true_false in Hj.
    assert (He : instanceof_jwt_TokenExpiredError error = false).
    { destruct error as [[[] ?]|]; simpl in *; congruence. }
    now rewrite He, Hj.
  - intros Hj. rewrite Hj.
    repeat match goal with |- context [if ?b then _ else _] => destruct b end;
      eexists; (split; [| reflexivity]); set_solver.
  - intros Hlow w. now rewrite Hlow.
Qed.

(** ** Extraction *)

Lemma try_extractors_skip (req : Request) (e : TokenExtractor) (rest : list TokenExtractor) :
  finds_nothing req e ->
  try_extractors req (e :: rest) =
    (S (fst (try_extractors req rest)), snd (try_extractors req rest)).
Proof.
  intros (v & Hv & Hf). cbn [try_extractors]. rewrite Hv, Hf.
  now destruct (try_extractors req rest).
Qed.

Lemma try_extractors_first (req : Request) (pre post : list TokenExtractor)
    (e : TokenExtractor) (token : value) :
  Forall (finds_nothing req) pre -> e req = Return token -> truthy token = true ->
  try_extractors req (pre ++ e :: post) = (S (length pre), Return token).
Proof.
  intros Hpre He Ht. induction Hpre as [|x pre Hx _ IH].
  - cbn [app try_extractors length]. now rewrite He, Ht.
  - cbn [app length]. rewrite (try_extractors_skip _ _ _ Hx), IH. reflexivity.
Qed.

Lemma try_extractors_none (req : Request) (l : list TokenExtractor) :
  Forall (finds_nothing req) l -> try_extractors req l = (length l, Return Null).
Proof.
  induction 1 as [|x l Hx _ IH]; [reflexivity |].
  rewrite (try_extractors_skip _ _ _ Hx), IH. reflexivity.
Qed.


(** C3. [extractToken] returns the result of the first extractor, in list
    order, that returns a non-empty result, after calling that extractor and
    the ones before it and no other (whatever the later ones would do); it
    returns [null] when every extractor finds nothing; without a list it uses
    the single bearer-header extractor. *)
Theorem extractToken_first_match (req : Request) :
  extractToken req None = extractToken req (Some [fromAuthHeaderAsBearerToken]) /\
  (forall (pre post : list TokenExtractor) (e : TokenExtractor) (token : value),
     Forall (finds_nothing req) pre -> e req = Return token -> truthy token = true ->
     extractToken req (Some (pre ++ e :: post)) = Return token /\
     fst (try_extractors req (pre ++ e :: post)) = S (length pre)) /\
  (forall l : list TokenExtractor,
     Forall (finds_nothing req) l -> extractToken req (Some l) = Return Null).
Proof.
  split; [reflexivity | split].
  - intros pre post e token Hpre He Ht. unfold extractToken, extractors_or_default.
    simpl. rewrite (try_extractors_first _ _ post _ _ Hpre He Ht). split; reflexivity.
  - intros l Hl. unfold extractToken, extractors_or_default. simpl.
    now rewrite (try_extractors_none _ _ Hl).
Qed.

Lemma add_header_other (headers : gmap string string) (line : string * string) (k : string) :
  JS.toLowerCase (fst line) <> k -> add_header headers line !! k = headers !! k.
Proof.
  intros Hne. unfold add_header.
  destruct (headers !! JS.toLowerCase (fst line)) as [old|]; [| now rewrite lookup_insert_ne].
  repeat match goal with |- context [if ?b then _ else _] => destruct b end;
    [reflexivity | now rewrite lookup_insert_ne ..].
Qed.

Lemma add_header_authorization_kept (headers : gmap string string) (line : string * string)
    (v : string) :
  headers !! "authorization" = Some v -> add_header headers line !! "authorization" = Some v.
Proof.
  intros Hv. destruct (decide (JS.toLowerCase (fst line) = "authorization")) as [E | E].
  - unfold add_header. rewrite E, Hv.
    assert (single_valued "authorization" = true) as -> by (vm_compute; reflexivity).
    exact Hv.
  - now rewrite add_header_other.
Qed.

Lemma fold_add_header_authorization_kept (raw : list (string * string))
    (headers : gmap string string) (v : string) :
  headers !! "authorization" = Some v ->
  fold_left add_header raw headers !! "authorization" = Some v.
Proof.
  revert headers. induction raw as [|line raw IH]; intros headers Hv; [exact Hv |].
  simpl. apply IH. now apply add_header_authorization_kept.
Qed.

Lemma fold_add_header_authorization_absent (raw : list (string * string))
    (headers : gmap string string) :
  Forall (fun line => JS.toLowerCase (fst line) <> "authorization") raw ->
  fold_left add_header raw headers !! "authorization" = headers !! "authorization".
Proof.
  intros H. revert headers. induction H as [|line raw Hl _ IH]; intros headers; [reflexivity |].
  simpl. rewrite IH. now apply add_header_other.
Qed.

(** C7 (amended). The bearer-header extractor reads the property
    [authorization] of [headers], under exactly that lower-case key.  On an
    [IncomingMessage] this finds the header however its name is spelled on the
    wire: Node stores the first header line whose name is "authorization" up
    to case under the lower-case name.  On a plain request object the key is
    not folded: without the key [authorization], whatever other keys there
    are, the extractor returns [null], and so it does without [headers] and
    for a value that is not a string.  When the value is two space-free parts
    around one space and the first part is "bearer" up to case, the extractor
    returns the second part, which is the empty string when nothing follows
    the space; for every other request it returns [null]. *)
Theorem bearer_header_extractor :
  (forall url before name v after,
     JS.toLowerCase name = "authorization" ->
     Forall (fun line => JS.toLowerCase (fst line) <> "authorization") before ->
     headers_authorization (IncomingMessage url (Node_headers (before ++ (name, v) :: after)))
       = Str v) /\
  (forall req (scheme token : string),
     headers_authorization req = Str (scheme +:+ " " +:+ token) ->
     JS.lacks " " scheme = true -> JS.lacks " " token = true ->
     JS.toLowerCase scheme = "bearer" ->
     fromAuthHeaderAsBearerToken req = Return (Str token)) /\
  (forall req,
     (~ exists scheme token : string,
          headers_authorization req = Str (scheme +:+ " " +:+ token) /\
          JS.lacks " " scheme = true /\ JS.lacks " " token = true /\
          JS.toLowerCase scheme = "bearer") ->
     fromAuthHeaderAsBearerToken req = Return Null) /\
  (forall url (headers : gmap string string) (auth : string),
     headers !! "authorization" = Some auth ->
     headers_authorization (IncomingMessage url headers) = Str auth) /\
  (forall (headers : gmap string value) query cookies (auth : string),
     headers !! "authorization" = Some (Str auth) ->
     headers_authorization (RequestLike (Some headers) query cookies) = Str auth) /\
  (forall url (headers : gmap string string),
     headers !! "authorization" = None ->
     fromAuthHeaderAsBearerToken (IncomingMessage url headers) = Return Null) /\
  (forall (headers : gmap string value) query cookies,
     headers !! "authorization" = None ->
     fromAuthHeaderAsBearerToken (RequestLike (Some headers) query cookies) = Return Null) /\
  (forall query cookies,
     fromAuthHeaderAsBearerToken (RequestLike None query cookies) = Return Null) /\
  (forall (headers : gmap string value) query cookies v,
     headers !! "authorization" = Some v -> (forall auth : string, v <> Str auth) ->
     fromAuthHeaderAsBearerToken (RequestLike (Some headers) query cookies) = Return Null) /\
  (forall req (scheme : string),
     headers_authorization req = Str (scheme +:+ " ") ->
     JS.lacks " " scheme = true -> JS.toLowerCase scheme = "bearer" ->
     fromAuthHeaderAsBearerToken req = Return (Str "")).
Proof.
  assert (Hshape : forall req (scheme token : string),
            headers_authorization req = Str (scheme +:+ " " +:+ token) ->
            JS.lacks " " scheme = true -> JS.lacks " " token = true ->
            JS.toLowerCase scheme = "bearer" ->
            fromAuthHeaderAsBearerToken req = Return (Str token)).
  { unfold fromAuthHeaderAsBearerToken.
    intros req scheme token Hh Hs Ht Hb. rewrite Hh.
    assert (Hsp : JS.split " " (scheme +:+ " " +:+ token) = [scheme; token])
      by (apply split_two; auto).
    rewrite Hsp. cbn [length nth Nat.eqb andb]. rewrite Hb. reflexivity. }
  repeat apply conj.
  - intros url before name v after Hname Hbefore. unfold headers_authorization, Node_headers.
    rewrite fold_left_app. cbn [fold_left].
    rewrite (fold_add_header_authorization_kept after _ v); [reflexivity |].
    unfold add_header at 1. cbn [fst snd]. rewrite Hname.
    rewrite (fold_add_header_authorization_absent _ _ Hbefore), lookup_empty.
    apply lookup_insert_eq.
  - exact Hshape.
  - unfold fromAuthHeaderAsBearerToken.
    intros req Hno. destruct (headers_authorization req) as [| |auth|]; try reflexivity.
    destruct (JS.split " " auth) as [|a [|b [|c l]]] eqn:Hsp; try reflexivity.
    cbn [length nth Nat.eqb andb].
    destruct (String.eqb (JS.toLowerCase a) "bearer") eqn:Hb; [| reflexivity].
    exfalso. apply Hno. exists a, b.
    apply split_two in Hsp as (-> & Ha & Hb').
    apply String.eqb_eq in Hb. auto.
  - intros url headers auth Hh. unfold headers_authorization. now rewrite Hh.
  - intros headers query cookies auth Hh. unfold headers_authorization, optional_get.
    now rewrite Hh.
  - intros url headers Hh. unfold fromAuthHeaderAsBearerToken, headers_authorization.
    now rewrite Hh.
  - intros headers query cookies Hh.
    unfold fromAuthHeaderAsBearerToken, headers_authorization, optional_get. now rewrite Hh.
  - reflexivity.
  - intros headers query cookies v Hh Hv.
    unfold fromAuthHeaderAsBearerToken, headers_authorization, optional_get. rewrite Hh.
    destruct v as [| |auth|]; try reflexivity. now destruct (Hv auth).
  - intros req scheme Hh Hs Hb. apply (Hshape req scheme ""); auto.
Qed.

Lemma or_null_absent_or_truthy (v : value) : or_null v = Null \/ truthy (or_null v) = true.
Proof. unfold or_null. destruct (truthy v) eqn:E; [right; exact E | left; reflexivity]. Qed.

Lemma or_null_not_empty (v : value) : or_null v <> Str "".
Proof. unfold or_null. destruct v as [| |[|c s]|]; simpl; discriminate. Qed.

Lemma fromCookie_returns (cookieName : string) (req : Request) :
  exists v, fromCookie cookieName req = Return v /\ (v = Null \/ truthy v = true) /\ v <> Str "".
Proof.
  destruct req as [url headers | h q c]; simpl.
  - destruct (headers !! "cookie"); eexists; (split; [reflexivity |]);
      split; auto using or_null_absent_or_truthy, or_null_not_empty.
  - eexists; split; [reflexivity |];
      split; auto using or_null_absent_or_truthy, or_null_not_empty.
Qed.


Lemma fromQueryParameter_IncomingMessage (param : string) (url : option string)
    (headers : gmap string string) :
  fromQueryParameter URL_searchParams param (IncomingMessage url headers) =
    match URL_searchParams (default "" url) ("http://" +:+ default "undefined" (headers !! "host")) with
    | Return params => Return (URLSearchParams_get params param)
    | Throw t => Throw t
    end.
Proof. destruct url; reflexivity. Qed.

Lemma try_extractors_throw (req : Request) (pre post : list TokenExtractor)
    (e : TokenExtractor) (t : thrown) :
  Forall (finds_nothing req) pre -> e req = Throw t ->
  try_extractors req (pre ++ e :: post) = (S (length pre), Throw t).
Proof.
  intros Hpre He. induction Hpre as [|x pre Hx _ IH].
  - cbn [app try_extractors length]. now rewrite He.
  - cbn [app length]. rewrite (try_extractors_skip _ _ _ Hx), IH. reflexivity.
Qed.

(** C2 (the code at the failing inputs). On an [IncomingMessage] the query
    extractor calls the [URL] constructor outside any [try]: what the
    constructor throws leaves the extractor, and leaves [extractToken] when
    the extractors before it found nothing, where the claim has the extractor
    return [null].  The constructor throws for the request target [//] (an
    authority without a host), for an empty [host] header and for a [host]
    header with a space; a bearer token in the same request is then not
    looked for. *)
Theorem fromQueryParameter_throws_what_URL_throws :
  (forall param url headers t,
     URL_searchParams (default "" url) ("http://" +:+ default "undefined" (headers !! "host"))
       = Throw t ->
     fromQueryParameter URL_searchParams param (IncomingMessage url headers) = Throw t /\
     forall pre post,
       Forall (finds_nothing (IncomingMessage url headers)) pre ->
       extractToken (IncomingMessage url headers)
         (Some (pre ++ fromQueryParameter URL_searchParams param :: post)) = Throw t) /\
  fromQueryParameter WHATWG.URL_searchParams "token"
    (IncomingMessage (Some "//") {[ "host" := "example.com" ]}) = Throw WHATWG.Invalid_URL /\
  fromQueryParameter WHATWG.URL_searchParams "token"
    (IncomingMessage (Some "/path?token=abc") {[ "host" := "" ]}) = Throw WHATWG.Invalid_URL /\
  fromQueryParameter WHATWG.URL_searchParams "token"
    (IncomingMessage None {[ "host" := "a b" ]}) = Throw WHATWG.Invalid_URL /\
  extractToken
    (IncomingMessage (Some "//")
       {[ "host" := "example.com"; "authorization" := "Bearer abc123" ]})
    (Some [fromQueryParameter WHATWG.URL_searchParams "token"; fromAuthHeaderAsBearerToken])
  = Throw WHATWG.Invalid_URL.
Proof.
  repeat apply conj; try (vm_compute; reflexivity).
  intros param url headers t Hurl.
  assert (Hq : fromQueryParameter URL_searchParams param (IncomingMessage url headers) = Throw t).
  { rewrite fromQueryParameter_IncomingMessage. now rewrite Hurl. }
  split; [exact Hq |].
  intros pre post Hpre. unfold extractToken, extractors_or_default. cbv [default from_option id].
  now rewrite (try_extractors_throw _ _ post _ _ Hpre Hq).
Qed.


Lemma extractToken_skips_falsy (req : Request) (e : TokenExtractor) (rest : list TokenExtractor) :
  finds_nothing req e -> extractToken req (Some (e :: rest)) = extractToken req (Some rest).
Proof.
  intros H. unfold extractToken, extractors_or_default. simpl default.
  now rewrite (try_extractors_skip _ _ _ H).
Qed.

(** C9 (amended). An extractor that returns the empty string has found
    nothing: [extractToken] goes on with the next extractor, and returns
    [null] if there is none.  The cookie extractor never returns the empty
    string (the header [cookie: token=] gives [null]), nor does the query
    extractor on a plain request object; on an [IncomingMessage] the query
    extractor returns what [URLSearchParams.get] returns, the empty string
    included, and [extractToken] then skips it. *)
Theorem empty_string_is_no_token :
  (forall req (e : TokenExtractor) rest,
     e req = Return (Str "") ->
     extractToken req (Some (e :: rest)) = extractToken req (Some rest)) /\
  (forall req (e : TokenExtractor),
     e req = Return (Str "") -> extractToken req (Some [e]) = Return Null) /\
  (forall cookieName req, fromCookie cookieName req <> Return (Str "")) /\
  fromCookie "token" (IncomingMessage None {[ "cookie" := "token=" ]}) = Return Null /\
  (forall param headers query cookies,
     fromQueryParameter URL_searchParams param (RequestLike headers query cookies)
       <> Return (Str "")) /\
  (forall param url headers params rest,
     URL_searchParams (default "" url) ("http://" +:+ default "undefined" (headers !! "host"))
       = Return params ->
     URLSearchParams_get params param = Str "" ->
     fromQueryParameter URL_searchParams param (IncomingMessage url headers) = Return (Str "") /\
     extractToken (IncomingMessage url headers)
       (Some (fromQueryParameter URL_searchParams param :: rest))
       = extractToken (IncomingMessage url headers) (Some rest)).
Proof.
  assert (Hskip : forall req (e : TokenExtractor) rest,
             e req = Return (Str "") ->
             extractToken req (Some (e :: rest)) = extractToken req (Some rest)).
  { intros req e rest He. apply extractToken_skips_falsy. now exists (Str ""). }
  repeat apply conj.
  - exact Hskip.
  - intros req e He. now rewrite (Hskip req e [] He).
  - intros cookieName req H. destruct (fromCookie_returns cookieName req) as (v & Hv & _ & Hne).
    congruence.
  - reflexivity.
  - intros param headers query cookies H. simpl in H. injection H as H.
    now apply or_null_not_empty in H.
  - intros param url headers params rest Hurl Hget.
    assert (Hq : fromQueryParameter URL_searchParams param (IncomingMessage url headers)
                 = Return (Str "")).
    { rewrite fromQueryParameter_IncomingMessage. now rewrite Hurl, Hget. }
    split; [exact Hq | now apply Hskip].
Qed.

(** C8 (the code at the failing inputs). A cookie value that contains [=]
    is cut at its second [=], where the parsing the specification words keeps
    it whole; and a later segment without [=] that repeats the key makes the
    extractor return [null], where the specified parsing skips the segment. *)
Theorem fromCookie_splits_at_every_equals_sign :
  fromCookie "token" (IncomingMessage None {[ "cookie" := "token=abc=def" ]}) = Return (Str "abc") /\
  spec_fromCookie "token" "token=abc=def" = Str "abc=def" /\
  fromCookie "token" (IncomingMessage None {[ "cookie" := "token=xyz; token" ]}) = Return Null /\
  spec_fromCookie "token" "token=xyz; token" = Str "xyz".
Proof. repeat split; vm_compute; reflexivity. Qed.

(** ** The adapters *)

(** C10. When extraction finds no token and [credentialsRequired] is false,
    [verifyRequest] returns a record with [isAuthenticated] true and neither
    payload nor error. *)
Theorem verifyRequest_passes_through_unauthenticated (req : Request) (options : JwtOptions) :
  extractToken req (extractors options) = Return Null ->
  credentialsRequired options = Some false ->
  verifyRequest jwt_verify req options
    = Return {| isAuthenticated := true; payload := None; error := None |}.
Proof. intros Hx Hc. run_adapter. now rewrite Hx, Hc. Qed.

(** C4 (amended). When extraction finds no token and [credentialsRequired]
    is true or left out, every adapter reports the missing token in its own
    way: [verifyRequest] returns the error with code TOKEN_MISSING and the
    message "No authorization token was found"; the Express middleware
    answers 401 with the body [{ error: message }], which carries the message
    and no code, and does not call [next]; the Fastify hook throws
    [HttpError(401, message)]; the Nest guard throws [NoTokenError].  When
    [credentialsRequired] is false the request proceeds with no payload
    attached and no error. *)
Theorem adapters_without_token (req : Request) (options : JwtOptions) :
  extractToken req (extractors options) = Return Null ->
  (credentialsRequired options = None \/ credentialsRequired options = Some true ->
     verifyRequest jwt_verify req options
       = Return {| isAuthenticated := false; payload := None;
                   error := Some {| code := MISSING;
                                    error_message := "No authorization token was found" |} |} /\
     TokenErrorCode_value MISSING = "TOKEN_MISSING" /\
     expressMiddleware jwt_verify options req express_init
       = {| req_user := None; res_statusCode := Some 401;
            res_body := Some [("error", "No authorization token was found")];
            next_calls := [] |} /\
     fastify_onRequest jwt_verify options req
       = Throw (ThrownError (new_HttpError 401 "No authorization token was found")) /\
     canActivate jwt_verify options req = Throw (ThrownError new_NoTokenError)) /\
  (credentialsRequired options = Some false ->
     verifyRequest jwt_verify req options
       = Return {| isAuthenticated := true; payload := None; error := None |} /\
     expressMiddleware jwt_verify options req express_init
       = {| req_user := None; res_statusCode := None; res_body := None;
            next_calls := [None] |} /\
     fastify_onRequest jwt_verify options req = Return None /\
     canActivate jwt_verify options req = Return (true, None)).
Proof.
  intros Hx. split.
  - intros Hc. run_adapter. rewrite Hx.
    destruct Hc as [-> | ->]; repeat split; reflexivity.
  - intros Hc. run_adapter. rewrite Hx, Hc. repeat split; reflexivity.
Qed.

Lemma classify_jwt_error (error : thrown) :
  jwt_error error -> is_Some (errorMap_entry (classify error)).
Proof.
  unfold jwt_error, classify. intros Hj. rewrite Hj.
  destruct (instanceof_jwt_TokenExpiredError error); [now eexists |].
  repeat match goal with |- context [if ?b then _ else _] => destruct b end; now eexists.
Qed.

Lemma errorMap_entry_codes (t : thrown) (entry : TokenError) :
  errorMap_entry t = Some entry ->
  entry = {| code := EXPIRED; error_message := "Token has expired" |} \/
  entry = {| code := INVALID; error_message := "Invalid token signature" |} \/
  entry = {| code := MALFORMED; error_message := "Malformed token" |}.
Proof.
  destruct t as [e|v]; [| discriminate]. unfold errorMap_entry, errorMap.
  intros H.
  apply lookup_insert_Some in H as [[_ <-] | [_ H]]; [auto |].
  apply lookup_insert_Some in H as [[_ <-] | [_ H]]; [auto |].
  apply lookup_singleton_Some in H as [_ <-]. auto.
Qed.

(** The steps every adapter performs end in one of three ways. *)
Lemma adapter_steps (req : Request) (options : JwtOptions) :
  (exists t, raised jwt_verify req options t) \/
  (exists token, extractToken req (extractors options) = Return token /\ truthy token = false) \/
  (exists token p, extractToken req (extractors options) = Return token /\
                   truthy token = true /\
                   verifyToken jwt_verify token (tokenOptions options) = Return p).
Proof.
  unfold raised.
  destruct (extractToken req (extractors options)) as [token | t] eqn:Hx; [| eauto].
  destruct (truthy token) eqn:Ht; [| eauto].
  destruct (verifyToken jwt_verify token (tokenOptions options)) as [p | t] eqn:Hv.
  - right. right. eauto.
  - left. exists t. right. eauto.
Qed.

Lemma raised_functional (req : Request) (options : JwtOptions) (t t' : thrown) :
  raised jwt_verify req options t -> raised jwt_verify req options t' -> t = t'.
Proof.
  unfold raised. intros [H | (tok & Hx & Ht & Hv)] [H' | (tok' & Hx' & Ht' & Hv')]; congruence.
Qed.

Lemma verifyRequest_raised (req : Request) (options : JwtOptions) (t : thrown) :
  raised jwt_verify req options t ->
  verifyRequest jwt_verify req options =
    match errorMap_entry t with
    | Some entry => Return {| isAuthenticated := false; payload := None; error := Some entry |}
    | None => Throw t
    end.
Proof.
  unfold raised. run_adapter. intros [Hx | (token & Hx & Ht & Hv)]; rewrite Hx.
  - destruct (errorMap_entry t) as [[c m]|]; reflexivity.
  - rewrite Ht. simpl. rewrite Hv. destruct (errorMap_entry t) as [[c m]|]; reflexivity.
Qed.

(** C5 (amended). [verifyRequest] returns a result record unless an
    exception outside the three classified classes arises in extraction or
    verification, which it throws again unchanged.  A record returned is
    tagged [isAuthenticated].  When the tag is true it has no error, and its
    payload is the one the primitive decoded from the token found, or there
    is none because no token was found and none was required; on every
    verified success the record is tagged true and carries the payload.  When
    the tag is false the record has a structured error (code and message) and
    no payload.  In particular [verifyRequest] returns whenever the
    extractors return and the primitive fails only with its own error
    classes. *)
Theorem verifyRequest_returns_or_rethrows (req : Request) (options : JwtOptions) :
  (forall r, verifyRequest jwt_verify req options = Return r ->
     (isAuthenticated r = true /\ error r = None /\
      ((exists p, payload r = Some p /\ verified jwt_verify req options p) \/
       (payload r = None /\ credentialsRequired options = Some false /\
        exists token, extractToken req (extractors options) = Return token /\
                      truthy token = false))) \/
     (isAuthenticated r = false /\ payload r = None /\
      exists entry, error r = Some entry /\
        entry ∈ [ {| code := MISSING; error_message := "No authorization token was found" |};
                  {| code := EXPIRED; error_message := "Token has expired" |};
                  {| code := INVALID; error_message := "Invalid token signature" |};
                  {| code := MALFORMED; error_message := "Malformed token" |} ])) /\
  (forall p, verified jwt_verify req options p ->
     verifyRequest jwt_verify req options
       = Return {| isAuthenticated := true; payload := Some p; error := None |}) /\
  (forall t, verifyRequest jwt_verify req options = Throw t <->
     raised jwt_verify req options t /\ errorMap_entry t = None) /\
  ((exists v, extractToken req (extractors options) = Return v) ->
   (forall token error,
      jwt_verify token (secret options) (default [HS256] (algorithms options)) = Throw error ->
      jwt_error error) ->
   exists r, verifyRequest jwt_verify req options = Return r).
Proof.
  assert (Hverified : forall token p,
            extractToken req (extractors options) = Return token -> truthy token = true ->
            verifyToken jwt_verify token (tokenOptions options) = Return p ->
            jwt_verify token (secret options) (default [HS256] (algorithms options)) = Return p).
  { intros token p _ _. unfold verifyToken, try_catch, tokenOptions. simpl.
    destruct (jwt_verify token (secret options) (default [HS256] (algorithms options)));
      [trivial | discriminate]. }
  repeat apply conj.
  - intros r Hr. destruct (adapter_steps req options) as [[t Ht] | [H | H]].
    + rewrite (verifyRequest_raised _ _ _ Ht) in Hr.
      destruct (errorMap_entry t) as [entry|] eqn:He; [| discriminate].
      injection Hr as <-. right. simpl. repeat split. exists entry. split; [reflexivity |].
      destruct (errorMap_entry_codes _ _ He) as [-> | [-> | ->]]; set_solver.
    + destruct H as (token & Hx & Ht). revert Hr. run_adapter. rewrite Hx, Ht. simpl.
      destruct (credentialsRequired options) as [[|]|]; simpl;
        intros [= <-]; simpl; [right | left | right].
      * repeat split. eexists. split; [reflexivity | set_solver].
      * repeat split. right. repeat split. eauto.
      * repeat split. eexists. split; [reflexivity | set_solver].
    + destruct H as (token & p & Hx & Ht & Hv). revert Hr. run_adapter.
      rewrite Hx, Ht. simpl. rewrite Hv. intros [= <-]. simpl. left. repeat split.
      left. exists p. split; [reflexivity |]. exists token. eauto.
  - intros p (token & Hx & Ht & Hv). run_adapter. rewrite Hx, Ht. simpl.
    unfold verifyToken, try_catch, tokenOptions. simpl. now rewrite Hv.
  - intros t. split.
    + intros Hr. destruct (adapter_steps req options) as [[t' Ht'] | [H | H]].
      * rewrite (verifyRequest_raised _ _ _ Ht') in Hr.
        destruct (errorMap_entry t') as [[c m]|] eqn:He; [discriminate |].
        injection Hr as <-. auto.
      * destruct H as (token & Hx & Ht). revert Hr. run_adapter. rewrite Hx, Ht. simpl.
        destruct (default true (credentialsRequired options)); discriminate.
      * destruct H as (token & p & Hx & Ht & Hv). revert Hr. run_adapter.
        rewrite Hx, Ht. simpl. rewrite Hv. discriminate.
    + intros [Ht He]. rewrite (verifyRequest_raised _ _ _ Ht). now rewrite He.
  - intros [v Hx] Hjwt.
    destruct (verifyRequest jwt_verify req options) as [r | t] eqn:Hr; [eauto |].
    exfalso.
    destruct (adapter_steps req options) as [[t' Ht'] | [H | H]].
    + rewrite (verifyRequest_raised _ _ _ Ht') in Hr.
      destruct Ht' as [Hx' | (token & _ & _ & Hv)]; [congruence |].
      unfold verifyToken, try_catch in Hv. simpl in Hv.
      destruct (jwt_verify token (secret options) (default [HS256] (algorithms options)))
        as [p | error] eqn:Hp; [discriminate |].
      injection Hv as <-. destruct (classify_jwt_error error (Hjwt _ _ Hp)) as [entry He].
      rewrite He in Hr. discriminate.
    + destruct H as (token & Hx' & Ht). revert Hr. run_adapter. rewrite Hx', Ht. simpl.
      destruct (default true (credentialsRequired options)); discriminate.
    + destruct H as (token & p & Hx' & Ht & Hv). revert Hr. run_adapter.
      rewrite Hx', Ht. simpl. rewrite Hv. discriminate.
Qed.

(** C6 (amended). In the Express middleware every exception that is an
    [Error], whether of a classified class or not, becomes the 401 answer
    with the error's message, and [next] is not called; only a thrown value
    that is not an [Error] is passed on with [next(error)]. *)
Theorem expressMiddleware_answers_401_for_every_Error
    (req : Request) (options : JwtOptions) (st : ExpressState) :
  (forall e : ErrorObject,
     raised jwt_verify req options (ThrownError e) ->
     expressMiddleware jwt_verify options req st
       = res_status_json 401 [("error", message e)] st /\
     next_calls (expressMiddleware jwt_verify options req st) = next_calls st) /\
  (forall v : value,
     raised jwt_verify req options (ThrownValue v) ->
     expressMiddleware jwt_verify options req st = next (Some (ThrownValue v)) st).
Proof.
  split.
  - intros e Hr.
    assert (H : expressMiddleware jwt_verify options req st
                = res_status_json 401 [("error", message e)] st).
    { revert Hr. unfold raised. run_adapter.
      intros [Hx | (token & Hx & Ht & Hv)]; rewrite Hx; [reflexivity |].
      rewrite Ht. simpl. now rewrite Hv. }
    split; [exact H | now rewrite H].
  - intros v. unfold raised. run_adapter.
    intros [Hx | (token & Hx & Ht & Hv)]; rewrite Hx; [reflexivity |].
    rewrite Ht. simpl. now rewrite Hv.
Qed.

(** ** Further properties *)

Lemma span_at_separator (sep : ascii) (a b : string) :
  JS.lacks sep a = true ->
  JS.span (Ascii.eqb sep) (a +:+ String sep b) = (a, String sep b).
Proof.
  induction a as [|c a IH]; intros Ha.
  - change ("" +:+ String sep b) with (String sep b). simpl. now rewrite Ascii.eqb_refl.
  - change (String c a +:+ String sep b) with (String c (a +:+ String sep b)).
    simpl in *. apply andb_true_iff in Ha as [Hc Ha]. apply negb_true_iff in Hc.
    rewrite Ascii.eqb_sym, Hc. now rewrite (IH Ha).
Qed.

Lemma cookie_step_same_pairs (acc : gmap string value) (spec_acc : gmap string string)
    (segment : string) :
  length (JS.split "=" (JS.trim segment)) = 2 ->
  same_pairs acc spec_acc ->
  same_pairs (cookie_step acc segment)
    (match spec_cookie_pair segment with
     | Some (key, v) => <[key := v]> spec_acc
     | None => spec_acc
     end).
Proof.
  intros Hlen Hsame. unfold cookie_step, spec_cookie_pair.
  destruct (JS.split "=" (JS.trim segment)) as [|key [|v [|x l]]] eqn:Hsp; try discriminate.
  apply split_two in Hsp as (Htrim & Hkey & _). rewrite Htrim.
  rewrite (span_at_separator _ _ _ Hkey). cbn [nth lookup list_lookup from_option].
  unfold obj_set. intros k Hk.
  destruct (String.eqb key "__proto__") eqn:Hp.
  - apply String.eqb_eq in Hp. subst key. rewrite lookup_insert_ne by congruence. now apply Hsame.
  - destruct (decide (key = k)) as [-> | Hne].
    + now rewrite !lookup_insert_eq.
    + rewrite !lookup_insert_ne by assumption. now apply Hsame.
Qed.

(** X1. The cookie extractor agrees with the parsing the specification words on
    every cookie header whose segments each hold exactly one [=]: it returns
    the value of the last segment with the requested key, or [null] when
    there is none or the value is empty. *)
Theorem fromCookie_agrees_on_single_equals_segments
    (cookieName : string) (url : option string) (headers : gmap string string)
    (header : string) :
  headers !! "cookie" = Some header ->
  Forall (fun segment => length (JS.split "=" (JS.trim segment)) = 2) (JS.split ";" header) ->
  Object_prototype_has cookieName = false ->
  fromCookie cookieName (IncomingMessage url headers)
    = Return (or_null (spec_fromCookie cookieName header)).
Proof.
  intros Hh Hsegs Hname. unfold fromCookie. rewrite Hh. f_equal.
  unfold parse_cookie_header, spec_fromCookie, spec_parse_cookie_header.
  assert (Hgen : forall acc spec_acc, same_pairs acc spec_acc ->
            same_pairs (fold_left cookie_step (JS.split ";" header) acc)
              (fold_left (fun a segment =>
                            match spec_cookie_pair segment with
                            | Some (key, v) => <[key := v]> a
                            | None => a
                            end) (JS.split ";" header) spec_acc)).
  { induction Hsegs as [|segment segs Hseg _ IH]; intros acc spec_acc Hsame; [exact Hsame |].
    simpl. apply IH. now apply cookie_step_same_pairs. }
  assert (Hk : cookieName <> "__proto__") by (intros ->; discriminate).
  specialize (Hgen ∅ ∅ (fun k _ => eq_trans (lookup_empty k) (eq_sym (f_equal (fmap Str) (lookup_empty k))))).
  unfold obj_get. rewrite (Hgen cookieName Hk), Hname.
  now destruct (_ !! cookieName).
Qed.

(** X3. When a token is found and verified, every adapter attaches the
    decoded payload and lets the request proceed. *)
Theorem adapters_attach_verified_payload (req : Request) (options : JwtOptions)
    (token : value) (p : Payload) :
  extractToken req (extractors options) = Return token ->
  truthy token = true ->
  verifyToken jwt_verify token (tokenOptions options) = Return p ->
  verifyRequest jwt_verify req options
    = Return {| isAuthenticated := true; payload := Some p; error := None |} /\
  expressMiddleware jwt_verify options req express_init
    = {| req_user := Some p; res_statusCode := None; res_body := None; next_calls := [None] |} /\
  fastify_onRequest jwt_verify options req = Return (Some p) /\
  canActivate jwt_verify options req = Return (true, Some p).
Proof.
  intros Hx Ht Hv. run_adapter. rewrite Hx, Ht. simpl. rewrite Hv. repeat split; reflexivity.
Qed.

(** X4. The Fastify hook and the Nest guard on an exception of the extraction
    or verification step: the hook turns the three classified errors into
    [HttpError(401, message)] and throws anything else again; the guard throws
    every [Error] again as it is and replaces any other thrown value by
    [new Error('Unknown error')]. *)
Theorem fastify_and_nest_on_exceptions (req : Request) (options : JwtOptions) (t : thrown) :
  raised jwt_verify req options t ->
  fastify_onRequest jwt_verify options req =
    match errorMap_entry t with
    | Some entry => Throw (ThrownError (new_HttpError 401 (error_message entry)))
    | None => Throw t
    end /\
  canActivate jwt_verify options req =
    match t with
    | ThrownError _ => Throw t
    | ThrownValue _ => Throw (ThrownError (mkError (OtherError "Error") "Unknown error"))
    end.
Proof.
  unfold raised. run_adapter. intros [Hx | (token & Hx & Ht & Hv)]; rewrite Hx.
  - split; [destruct (errorMap_entry t) | destruct t]; reflexivity.
  - rewrite Ht. simpl. rewrite Hv. split; [destruct (errorMap_entry t) | destruct t]; reflexivity.
Qed.

End Properties.

(* ===================================================================== *)
(** * Further properties: the adapters side by side *)
(* ===================================================================== *)

Section Adapters.

Context {Payload : Type}.
Context (jwt_verify : value -> string -> list Algorithm -> Outcome Payload).

(** What [extractToken] returns is [null] or truthy. *)
Lemma try_extractors_null_or_truthy (req : Request) (l : list TokenExtractor) (v : value) :
  snd (try_extractors req l) = Return v -> v = Null \/ truthy v = true.
Proof.
  revert v. induction l as [|e l IH]; simpl; intros v Hv.
  - left. congruence.
  - destruct (e req) as [w | t]; [| discriminate].
    destruct (truthy w) eqn:Hw; [right; simpl in Hv; congruence |].
    destruct (try_extractors req l). apply IH. exact Hv.
Qed.

(** The four adapters on one request, by the way the extraction and
    verification steps end. *)
Lemma adapters_table (req : Request) (options : JwtOptions) :
  (exists t, raised jwt_verify req options t /\
     verifyRequest jwt_verify req options =
       match errorMap_entry t with
       | Some entry => Return {| isAuthenticated := false; payload := None; error := Some entry |}
       | None => Throw t
       end /\
     expressMiddleware jwt_verify options req express_init =
       match t with
       | ThrownError e => res_status_json 401 [("error", message e)] express_init
       | ThrownValue _ => next (Some t) express_init
       end /\
     fastify_onRequest jwt_verify options req =
       match errorMap_entry t with
       | Some entry => Throw (ThrownError (new_HttpError 401 (error_message entry)))
       | None => Throw t
       end /\
     canActivate jwt_verify options req =
       match t with
       | ThrownError _ => Throw t
       | ThrownValue _ => Throw (ThrownError (mkError (OtherError "Error") "Unknown error"))
       end) \/
  (extractToken req (extractors options) = Return Null /\
   credentialsRequired_or_default options = true /\
   verifyRequest jwt_verify req options =
     Return {| isAuthenticated := false; payload := None;
               error := Some {| code := MISSING;
                                error_message := "No authorization token was found" |} |} /\
   expressMiddleware jwt_verify options req express_init =
     res_status_json 401 [("error", "No authorization token was found")] express_init /\
   fastify_onRequest jwt_verify options req =
     Throw (ThrownError (new_HttpError 401 "No authorization token was found")) /\
   canActivate jwt_verify options req = Throw (ThrownError new_NoTokenError)) \/
  (extractToken req (extractors options) = Return Null /\
   credentialsRequired_or_default options = false /\
   verifyRequest jwt_verify req options =
     Return {| isAuthenticated := true; payload := None; error := None |} /\
   expressMiddleware jwt_verify options req express_init = next None express_init /\
   fastify_onRequest jwt_verify options req = Return None /\
   canActivate jwt_verify options req = Return (true, None)) \/
  (exists p, verified jwt_verify req options p /\
     verifyRequest jwt_verify req options =
       Return {| isAuthenticated := true; payload := Some p; error := None |} /\
     expressMiddleware jwt_verify options req express_init =
       next None (set_user p express_init) /\
     fastify_onRequest jwt_verify options req = Return (Some p) /\
     canActivate jwt_verify options req = Return (true, Some p)).
Proof.
  unfold raised, verified. run_adapter.
  destruct (extractToken req (extractors options)) as [token | t] eqn:Hx.
  - destruct (truthy token) eqn:Ht; simpl.
    + unfold verifyToken, try_catch, tokenOptions. simpl.
      destruct (jwt_verify token (secret options) (default [HS256] (algorithms options)))
        as [p | error] eqn:Hv.
      * right. right. right. exists p.
        split; [exists token; repeat split; first [assumption | reflexivity] |].
        repeat split; reflexivity.
      * left. exists (classify error).
        split; [right; exists token; repeat split;
                first [assumption | reflexivity | rewrite Hv; reflexivity] |].
        destruct (errorMap_entry (classify error)) as [[c m]|];
          destruct (classify error); repeat split; reflexivity.
    + assert (token = Null) as ->.
      { destruct (try_extractors_null_or_truthy _ _ _ Hx) as [-> | Hc];
          [reflexivity | congruence]. }
      right. destruct (default true (credentialsRequired options)) eqn:Hc.
      * left. repeat split; reflexivity.
      * right. left. repeat split; reflexivity.
  - left. exists t. split; [now left |].
    destruct (errorMap_entry t) as [[c m]|]; destruct t; repeat split; reflexivity.
Qed.

Lemma classify_jwt_error_entry (error : thrown) :
  jwt_error error ->
  exists e entry, classify error = ThrownError e /\
                  errorMap_entry (classify error) = Some entry /\
                  error_message entry = message e.
Proof.
  unfold jwt_error, classify. intros Hj. rewrite Hj.
  destruct (instanceof_jwt_TokenExpiredError error);
    repeat match goal with |- context [if ?b then _ else _] => destruct b end;
    eexists; eexists; (split; [reflexivity |]); split; reflexivity.
Qed.

(** X2. [verifyToken] succeeds exactly when the primitive does, with the
    payload the primitive decodes; what it throws is never one of the
    primitive's own [JsonWebTokenError]s; and leaving [algorithms] out is the
    same as giving the allow-list [["HS256"]]. *)
Theorem verifyToken_succeeds_with_the_primitive (token : value) (options : VerifyOptions) :
  (forall p, verifyToken jwt_verify token options = Return p <->
             jwt_verify token (vo_secret options) (default [HS256] (vo_algorithms options))
               = Return p) /\
  (forall t, verifyToken jwt_verify token options = Throw t ->
             instanceof_jwt_JsonWebTokenError t = false) /\
  verifyToken jwt_verify token (mkVerifyOptions (vo_secret options) None)
    = verifyToken jwt_verify token (mkVerifyOptions (vo_secret options) (Some [HS256])).
Proof.
  unfold verifyToken, try_catch. repeat apply conj; [| | reflexivity].
  - intros p. destruct (jwt_verify _ _ _); split; congruence.
  - intros t. destruct (jwt_verify _ _ _) as [p | error]; [discriminate |].
    intros [= <-]. unfold classify.
    destruct (instanceof_jwt_TokenExpiredError error); [reflexivity |].
    destruct (instanceof_jwt_JsonWebTokenError error) eqn:Hj; [| exact Hj].
    repeat match goal with |- context [if ?b then _ else _] => destruct b end; reflexivity.
Qed.

(** X5. No adapter attaches a payload the primitive has not produced: a
    payload in the record of [verifyRequest], in [req.user] of the Express
    request, in [request.user] after the Fastify hook or after the Nest guard
    is the primitive's answer to a token that the configured extractors found
    in that request. *)
Theorem adapters_attach_only_verified_payloads (req : Request) (options : JwtOptions)
    (p : Payload) :
  (forall r, verifyRequest jwt_verify req options = Return r -> payload r = Some p ->
             verified jwt_verify req options p) /\
  (req_user (expressMiddleware jwt_verify options req express_init) = Some p ->
     verified jwt_verify req options p) /\
  (fastify_onRequest jwt_verify options req = Return (Some p) ->
     verified jwt_verify req options p) /\
  (forall b, canActivate jwt_verify options req = Return (b, Some p) ->
             verified jwt_verify req options p).
Proof.
  destruct (adapters_table req options)
    as [(t & Hr & Hn & He & Hf & Hc) | [(Hx & Hq & Hn & He & Hf & Hc)
       | [(Hx & Hq & Hn & He & Hf & Hc) | (q & Hq & Hn & He & Hf & Hc)]]];
    rewrite Hn, He, Hf, Hc; express_records.
  - destruct (errorMap_entry t), t; by_cases.
  - by_cases.
  - by_cases.
  - by_cases.
Qed.

(** X6. The four adapters take the same decision on a request: the record of
    [verifyRequest] is tagged authenticated, with a given payload or none,
    exactly when the Express middleware calls [next()] once with that value in
    [req.user] and sends no response, exactly when the Fastify hook returns
    with it in [request.user], and exactly when the Nest guard resolves to
    [true] with it.  The guard never resolves to [false]. *)
Theorem adapters_take_the_same_decision (req : Request) (options : JwtOptions) :
  (forall u : option Payload,
     (verifyRequest jwt_verify req options
        = Return {| isAuthenticated := true; payload := u; error := None |} <->
      expressMiddleware jwt_verify options req express_init
        = {| req_user := u; res_statusCode := None; res_body := None; next_calls := [None] |}) /\
     (verifyRequest jwt_verify req options
        = Return {| isAuthenticated := true; payload := u; error := None |} <->
      fastify_onRequest jwt_verify options req = Return u) /\
     (verifyRequest jwt_verify req options
        = Return {| isAuthenticated := true; payload := u; error := None |} <->
      canActivate jwt_verify options req = Return (true, u))) /\
  (forall r, verifyRequest jwt_verify req options = Return r -> isAuthenticated r = true ->
             error r = None) /\
  (forall u, canActivate jwt_verify options req <> Return (false, u)).
Proof.
  destruct (adapters_table req options)
    as [(t & Hr & Hn & He & Hf & Hc) | [(Hx & Hq & Hn & He & Hf & Hc)
       | [(Hx & Hq & Hn & He & Hf & Hc) | (q & Hq & Hn & He & Hf & Hc)]]];
    rewrite Hn, He, Hf, Hc; express_records.
  - destruct (errorMap_entry t), t; by_cases.
  - by_cases.
  - by_cases.
  - by_cases.
Qed.

(** X7. For one failure the adapters report one message.  When the
    extractors return and the primitive fails only with its own error
    classes, the message in the error of [verifyRequest]'s record is the
    message in the body of the Express middleware's 401 answer, the message of
    the [HttpError] with status 401 the Fastify hook throws, and the message
    of the error the Nest guard throws. *)
Theorem adapters_report_the_same_message (req : Request) (options : JwtOptions) :
  (exists v, extractToken req (extractors options) = Return v) ->
  (forall token error,
     jwt_verify token (secret options) (default [HS256] (algorithms options)) = Throw error ->
     jwt_error error) ->
  forall r entry,
    verifyRequest jwt_verify req options = Return r -> error r = Some entry ->
    expressMiddleware jwt_verify options req express_init
      = res_status_json 401 [("error", error_message entry)] express_init /\
    fastify_onRequest jwt_verify options req
      = Throw (ThrownError (new_HttpError 401 (error_message entry))) /\
    exists e, canActivate jwt_verify options req = Throw (ThrownError e) /\
              message e = error_message entry.
Proof.
  intros [v Hret] Hjwt r entry.
  destruct (adapters_table req options)
    as [(t & Hr & Hn & He & Hf & Hc) | [(Hx & Hq & Hn & He & Hf & Hc)
       | [(Hx & Hq & Hn & He & Hf & Hc) | (q & Hq & Hn & He & Hf & Hc)]]];
    rewrite Hn, He, Hf, Hc.
  - destruct Hr as [Hx | (token & _ & _ & Hv)]; [congruence |].
    unfold verifyToken, try_catch in Hv. simpl in Hv.
    destruct (jwt_verify token (secret options) (default [HS256] (algorithms options)))
      as [p | err] eqn:Hp; [discriminate |].
    injection Hv as <-.
    destruct (classify_jwt_error_entry err (Hjwt _ _ Hp)) as (e & entry' & -> & -> & Hm).
    intros [= <-] [= <-]. simpl. rewrite Hm. eauto.
  - intros [= <-] [= <-]. simpl. eauto.
  - intros [= <-]. discriminate.
  - intros [= <-]. discriminate.
Qed.

(** X8. The Express middleware either answers or continues, never both and
    never twice: from a fresh request it ends with status 401, a body with
    the one member [error], no call of [next] and [req.user] untouched, or
    with no response and exactly one call of [next]; [req.user] is set only
    together with a plain [next()]. *)
Theorem expressMiddleware_answers_or_continues (req : Request) (options : JwtOptions) :
  (res_statusCode (expressMiddleware jwt_verify options req express_init) = Some 401 /\
   (exists m, res_body (expressMiddleware jwt_verify options req express_init)
                = Some [("error", m)]) /\
   next_calls (expressMiddleware jwt_verify options req express_init) = [] /\
   req_user (expressMiddleware jwt_verify options req express_init) = None) \/
  (res_statusCode (expressMiddleware jwt_verify options req express_init) = None /\
   res_body (expressMiddleware jwt_verify options req express_init) = None /\
   exists arg, next_calls (expressMiddleware jwt_verify options req express_init) = [arg] /\
               (is_Some (req_user (expressMiddleware jwt_verify options req express_init)) ->
                arg = None)).
Proof.
  destruct (adapters_table req options)
    as [(t & Hr & Hn & He & Hf & Hc) | [(Hx & Hq & Hn & He & Hf & Hc)
       | [(Hx & Hq & Hn & He & Hf & Hc) | (q & Hq & Hn & He & Hf & Hc)]]];
    rewrite He; express_records.
  - destruct t as [e | v].
    + left. eauto.
    + right. repeat split. eexists. split; [reflexivity |]. intros [? ?]. discriminate.
  - left. eauto.
  - right. eauto.
  - right. eauto.
Qed.

(** X9. [credentialsRequired] matters only when no token is found: on a
    request in which the extractors find a token, or one of them throws, every
    adapter does the same whatever the option is set to. *)
Theorem credentialsRequired_matters_only_without_token
    (req : Request) (options : JwtOptions) (c : option bool) :
  extractToken req (extractors options) <> Return Null ->
  verifyRequest jwt_verify req (with_credentialsRequired c options)
    = verifyRequest jwt_verify req options /\
  expressMiddleware jwt_verify (with_credentialsRequired c options) req express_init
    = expressMiddleware jwt_verify options req express_init /\
  fastify_onRequest jwt_verify (with_credentialsRequired c options) req
    = fastify_onRequest jwt_verify options req /\
  canActivate jwt_verify (with_credentialsRequired c options) req
    = canActivate jwt_verify options req.
Proof.
  intros Hne. run_adapter. unfold with_credentialsRequired, tokenOptions. simpl.
  destruct (extractToken req (extractors options)) as [token | t] eqn:Hx.
  - destruct (truthy token) eqn:Ht; simpl; [repeat split; reflexivity |].
    destruct (try_extractors_null_or_truthy _ _ _ Hx) as [-> | Hc]; congruence.
  - repeat split; reflexivity.
Qed.

End Adapters.

(* ===================================================================== *)
(** * Further properties: extraction *)
(* ===================================================================== *)

Section ExtractionFacts.

Lemma try_extractors_app (req : Request) (l1 l2 : list TokenExtractor) :
  snd (try_extractors req (l1 ++ l2)) =
    match snd (try_extractors req l1) with
    | Return Null => snd (try_extractors req l2)
    | r => r
    end.
Proof.
  induction l1 as [|e l1 IH]; [reflexivity |].
  cbn [app try_extractors]. destruct (e req) as [w | t]; [| reflexivity].
  destruct (truthy w) eqn:Hw.
  - destruct w; try discriminate; reflexivity.
  - destruct (try_extractors req (l1 ++ l2)), (try_extractors req l1). exact IH.
Qed.

(** X10. [extractToken] over a list in two parts is [extractToken] over the
    first part, and over the second part only if the first part yields
    [null]; and an extractor that throws before any extractor has found a
    token ends the extraction with its exception, the later extractors not
    being called. *)
Theorem extractToken_over_concatenation (req : Request) :
  (forall l1 l2 : list TokenExtractor,
     extractToken req (Some (l1 ++ l2)) =
       match extractToken req (Some l1) with
       | Return Null => extractToken req (Some l2)
       | r => r
       end) /\
  (forall (pre post : list TokenExtractor) (e : TokenExtractor) (t : thrown),
     Forall (finds_nothing req) pre -> e req = Throw t ->
     extractToken req (Some (pre ++ e :: post)) = Throw t /\
     fst (try_extractors req (pre ++ e :: post)) = S (length pre)).
Proof.
  split.
  - intros l1 l2. unfold extractToken, extractors_or_default. simpl.
    apply try_extractors_app.
  - intros pre post e t Hpre He. unfold extractToken, extractors_or_default. simpl.
    rewrite (try_extractors_throw _ _ post _ _ Hpre He). split; reflexivity.
Qed.

Lemma lacks_drop_start (c : ascii) (p : ascii -> bool) (s : string) :
  JS.lacks c s = true -> JS.lacks c (JS.drop_start p s) = true.
Proof.
  induction s as [|a s IH]; [trivial |]. simpl. intros H.
  destruct (p a); [| exact H]. apply andb_true_iff in H as [_ H]. auto.
Qed.

Lemma lacks_drop_end (c : ascii) (p : ascii -> bool) (s : string) :
  JS.lacks c s = true -> JS.lacks c (JS.drop_end p s) = true.
Proof.
  induction s as [|a s IH]; [trivial |]. simpl. intros H.
  apply andb_true_iff in H as [Ha H]. specialize (IH H).
  destruct (JS.drop_end p s) as [|b r].
  - destruct (p a); [reflexivity |]. simpl. now rewrite Ha.
  - simpl in *. now rewrite Ha, IH.
Qed.

Lemma lacks_split_pieces (c sep : ascii) (s : string) :
  JS.lacks c s = true -> Forall (fun x => JS.lacks c x = true) (JS.split sep s).
Proof.
  induction s as [|a s IH]; simpl; intros H.
  - now constructor.
  - apply andb_true_iff in H as [Ha H]. specialize (IH H).
    destruct (Ascii.eqb a sep).
    + now constructor.
    + destruct (JS.split sep s) as [|h t].
      * constructor; [simpl; now rewrite Ha | constructor].
      * inversion IH; subst. constructor; [simpl | assumption].
        rewrite Ha. assumption.
Qed.

Lemma cookie_step_values (acc : gmap string value) (segment : string) :
  JS.lacks ";" segment = true ->
  (forall k s, acc !! k = Some (Str s) -> JS.lacks ";" s = true /\ JS.lacks "=" s = true) ->
  forall k s, cookie_step acc segment !! k = Some (Str s) ->
              JS.lacks ";" s = true /\ JS.lacks "=" s = true.
Proof.
  intros Hseg Hacc k s. unfold cookie_step, obj_set.
  destruct (String.eqb _ "__proto__"); [apply Hacc |].
  destruct (decide (nth 0 (JS.split "=" (JS.trim segment)) "" = k)) as [<- | Hne].
  - rewrite lookup_insert_eq.
    destruct (JS.split "=" (JS.trim segment) !! 1) as [v|] eqn:Hv; [| discriminate].
    intros [= <-].
    assert (Htrim : JS.lacks ";" (JS.trim segment) = true)
      by (unfold JS.trim; now apply lacks_drop_end, lacks_drop_start).
    pose proof (lacks_split_pieces ";" "=" _ Htrim) as H1.
    pose proof (split_pieces_lack "=" (JS.trim segment)) as H2.
    rewrite Forall_forall in H1, H2.
    apply list_elem_of_lookup_2 in Hv. auto.
  - rewrite lookup_insert_ne by assumption. apply Hacc.
Qed.

(** X11. What the built-in extractors hand out has the shape their parsing
    leaves: a token from the bearer-header extractor contains no space, and a
    token from the cookie header of an [IncomingMessage] is not empty and
    contains neither [;] nor [=]. *)
Theorem extracted_tokens_are_free_of_separators :
  (forall req token,
     fromAuthHeaderAsBearerToken req = Return (Str token) -> JS.lacks " " token = true) /\
  (forall cookieName url headers token,
     fromCookie cookieName (IncomingMessage url headers) = Return (Str token) ->
     token <> "" /\ JS.lacks ";" token = true /\ JS.lacks "=" token = true).
Proof.
  split.
  - intros req token. unfold fromAuthHeaderAsBearerToken.
    destruct (headers_authorization req) as [| |auth|]; try discriminate.
    pose proof (split_pieces_lack " " auth) as Hp.
    destruct (JS.split " " auth) as [|a [|b [|c l]]]; try discriminate.
    cbn [length nth Nat.eqb andb].
    destruct (String.eqb _ "bearer"); [| discriminate]. intros [= <-].
    inversion Hp as [|? ? _ Hp']; subst. now inversion Hp'.
  - intros cookieName url headers token. unfold fromCookie.
    destruct (headers !! "cookie") as [header|]; [| discriminate].
    intros [= H]. split; [intros ->; now apply or_null_not_empty in H |].
    assert (Hget : obj_get (parse_cookie_header header) cookieName = Str token).
    { revert H. unfold or_null. destruct (truthy _); congruence. }
    unfold obj_get in Hget.
    destruct (parse_cookie_header header !! cookieName) as [v|] eqn:Hv;
      [subst v | destruct (Object_prototype_has cookieName); discriminate].
    revert Hv. unfold parse_cookie_header.
    pose proof (split_pieces_lack ";" header) as Hsegs.
    assert (Hgen : forall acc,
              (forall k s, acc !! k = Some (Str s) ->
                           JS.lacks ";" s = true /\ JS.lacks "=" s = true) ->
              forall k s, fold_left cookie_step (JS.split ";" header) acc !! k = Some (Str s) ->
                          JS.lacks ";" s = true /\ JS.lacks "=" s = true).
    { induction Hsegs as [|segment segs Hseg _ IH]; intros acc Hacc; [exact Hacc |].
      simpl. apply IH. now apply cookie_step_values. }
    apply Hgen. intros k s Hk. rewrite lookup_empty in Hk. discriminate.
Qed.

Lemma cookie_step_lookup (acc : gmap string value) (segment cookieName : string) :
  cookieName <> "__proto__" ->
  cookie_step acc segment !! cookieName =
    if decide (segment_key segment = cookieName) then Some (segment_value segment)
    else acc !! cookieName.
Proof.
  intros Hname. unfold cookie_step, obj_set. fold (segment_key segment) (segment_value segment).
  destruct (String.eqb (segment_key segment) "__proto__") eqn:Hp.
  - apply String.eqb_eq in Hp. rewrite decide_False by congruence. reflexivity.
  - destruct (decide (segment_key segment = cookieName)) as [<- | Hne].
    + apply lookup_insert_eq.
    + now apply lookup_insert_ne.
Qed.

Lemma fold_cookie_step_lookup (segments : list string) (acc : gmap string value)
    (cookieName : string) :
  cookieName <> "__proto__" ->
  fold_left cookie_step segments acc !! cookieName =
    match last_segment_with_key cookieName segments with
    | Some segment => Some (segment_value segment)
    | None => acc !! cookieName
    end.
Proof.
  intros Hname. unfold last_segment_with_key.
  revert acc. induction segments as [|segment segments IH]; intros acc; [reflexivity |].
  cbn [fold_left]. rewrite IH, filter_cons, cookie_step_lookup by assumption.
  destruct (decide (segment_key segment = cookieName)); [| reflexivity].
  rewrite last_cons. now destruct (last _).
Qed.

(** X12. The cookie extractor on an [IncomingMessage] is decided by the last
    segment of the cookie header whose key is the requested name: it returns
    that segment's value when the value is a non-empty string, and [null]
    when the segment has no value, or an empty one, or there is no such
    segment (for a name that [Object.prototype] does not define). *)
Theorem fromCookie_last_segment_wins (cookieName : string) (url : option string)
    (headers : gmap string string) (header : string) :
  headers !! "cookie" = Some header ->
  Object_prototype_has cookieName = false ->
  fromCookie cookieName (IncomingMessage url headers) =
    match last_segment_with_key cookieName (JS.split ";" header) with
    | Some segment => Return (or_null (segment_value segment))
    | None => Return Null
    end.
Proof.
  intros Hh Hname. unfold fromCookie. rewrite Hh.
  assert (Hk : cookieName <> "__proto__") by (intros ->; discriminate).
  unfold obj_get, parse_cookie_header.
  rewrite (fold_cookie_step_lookup _ _ _ Hk), lookup_empty.
  destruct (last_segment_with_key cookieName (JS.split ";" header)); [reflexivity |].
  now rewrite Hname.
Qed.

Lemma fold_cookie_step_proto (segments : list string) (acc : gmap string value) :
  fold_left cookie_step segments acc !! "__proto__" = acc !! "__proto__".
Proof.
  revert acc. induction segments as [|segment segments IH]; intros acc; [reflexivity |].
  cbn [fold_left]. rewrite IH. unfold cookie_step, obj_set.
  destruct (String.eqb _ "__proto__") eqn:Hp; [reflexivity |].
  apply String.eqb_neq in Hp. now apply lookup_insert_ne.
Qed.

(** X17. The cookies of a header are collected in an object literal, so a
    cookie name that [Object.prototype] defines ([constructor], [toString],
    ...) is found although the header has no cookie of that name: the
    extractor returns the inherited member, which is not a string and not
    [null], and [extractToken] hands it out as the token found.  For
    [__proto__] this is so whatever the header holds. *)
Theorem fromCookie_finds_inherited_members (cookieName : string) (url : option string)
    (headers : gmap string string) (header : string) :
  headers !! "cookie" = Some header ->
  Object_prototype_has cookieName = true ->
  cookieName = "__proto__" \/ last_segment_with_key cookieName (JS.split ";" header) = None ->
  exists member,
    fromCookie cookieName (IncomingMessage url headers) = Return (Obj member) /\
    extractToken (IncomingMessage url headers) (Some [fromCookie cookieName])
      = Return (Obj member).
Proof.
  intros Hh Hname Hcase. exists ("Object.prototype." +:+ cookieName).
  assert (Hf : fromCookie cookieName (IncomingMessage url headers)
               = Return (Obj ("Object.prototype." +:+ cookieName))).
  { unfold fromCookie. rewrite Hh. unfold obj_get, parse_cookie_header.
    assert (Hl : fold_left cookie_step (JS.split ";" header) ∅ !! cookieName = None).
    { destruct (decide (cookieName = "__proto__")) as [-> | Hne].
      - rewrite fold_cookie_step_proto. apply lookup_empty.
      - destruct Hcase as [? | Hnone]; [contradiction |].
        rewrite (fold_cookie_step_lookup _ _ _ Hne), Hnone. apply lookup_empty. }
    rewrite Hl, Hname. reflexivity. }
  split; [exact Hf |].
  unfold extractToken, extractors_or_default. cbv [default from_option id].
  cbn [try_extractors]. rewrite Hf. reflexivity.
Qed.

End ExtractionFacts.

(* ===================================================================== *)
(** * Further properties: signing and the decorator *)
(* ===================================================================== *)

Section SigningFacts.

Context {Payload : Type}.
Context (jwt_sign : Payload -> string -> ExpiresIn -> Algorithm -> Outcome string).
Context (jwt_verify : value -> string -> list Algorithm -> Outcome Payload).
Context {Result : Type}.

(** X13. [signToken] returns the token exactly when the primitive returns
    it; every [Error] it throws is a plain [Error] whose message starts with
    "Failed to sign token: " (the class of the primitive's error is not kept),
    and a thrown value that is no [Error] is the primitive's, unchanged;
    leaving [expiresIn] and [algorithm] out is the same as giving ['1h'] and
    ['HS256']. *)
Theorem signToken_wraps_failures (payload : Payload) (options : SignOptions) :
  (forall token,
     signToken jwt_sign payload options = Return token <->
     jwt_sign payload (so_secret options) (default (Duration "1h") (so_expiresIn options))
       (default HS256 (so_algorithm options)) = Return token) /\
  (forall e,
     signToken jwt_sign payload options = Throw (ThrownError e) ->
     error_class e = OtherError "Error" /\
     JS.startsWith (message e) "Failed to sign token: " = true /\
     exists e', jwt_sign payload (so_secret options)
                  (default (Duration "1h") (so_expiresIn options))
                  (default HS256 (so_algorithm options)) = Throw (ThrownError e') /\
                message e = "Failed to sign token: " +:+ message e') /\
  (forall v,
     signToken jwt_sign payload options = Throw (ThrownValue v) <->
     jwt_sign payload (so_secret options) (default (Duration "1h") (so_expiresIn options))
       (default HS256 (so_algorithm options)) = Throw (ThrownValue v)) /\
  signToken jwt_sign payload (mkSignOptions (so_secret options) None None)
    = signToken jwt_sign payload
        (mkSignOptions (so_secret options) (Some (Duration "1h")) (Some HS256)).
Proof.
  unfold signToken, try_catch. repeat apply conj; [| | | reflexivity].
  - intros token. destruct (jwt_sign _ _ _ _) as [tok | [e | v]]; split; congruence.
  - intros e. destruct (jwt_sign _ _ _ _) as [tok | [e' | v]]; try discriminate.
    intros [= <-]. split; [reflexivity |]. split; [| eauto].
    apply startsWith_prefix. now eexists.
  - intros v. destruct (jwt_sign _ _ _ _) as [tok | [e' | w]]; split; congruence.
Qed.

(** The primitive round-trips: a token it signs under an expiry that has not
    passed verifies, with the same secret and an allow-list that has the
    algorithm, to a payload matching the one signed. *)
Context (unexpired : ExpiresIn -> Prop) (matches : Payload -> Payload -> Prop).

(** X14. Signing then verifying round-trips when the primitive does:
    [verifyToken], with the secret [signToken] was given and an allow-list
    (its default [["HS256"]] when left out) that has the signing algorithm
    (its default ['HS256'] when left out), returns a payload matching the one
    signed. *)
Theorem signToken_then_verifyToken (payload : Payload) (sign_options : SignOptions)
    (verify_options : VerifyOptions) (token : string) :
  (forall p secret expiresIn algorithm allowed tok,
     unexpired expiresIn -> algorithm ∈ allowed ->
     jwt_sign p secret expiresIn algorithm = Return tok ->
     exists q, jwt_verify (Str tok) secret allowed = Return q /\ matches p q) ->
  unexpired (default (Duration "1h") (so_expiresIn sign_options)) ->
  vo_secret verify_options = so_secret sign_options ->
  default HS256 (so_algorithm sign_options) ∈ default [HS256] (vo_algorithms verify_options) ->
  signToken jwt_sign payload sign_options = Return token ->
  exists q, verifyToken jwt_verify (Str token) verify_options = Return q /\ matches payload q.
Proof.
  intros Hrt Hexp Hsecret Halg Hsign.
  unfold signToken, try_catch in Hsign.
  destruct (jwt_sign _ _ _ _) as [tok | [e | v]] eqn:Hs; try discriminate.
  injection Hsign as ->.
  destruct (Hrt _ _ _ _ _ _ Hexp Halg Hs) as (q & Hq & Hm).
  exists q. split; [| exact Hm]. unfold verifyToken, try_catch. now rewrite Hsecret, Hq.
Qed.

(** X15. The method form of [UseJwtAuth] runs the handler exactly when the
    guard lets the request pass, with what the guard left in [request.user]:
    the decoded payload of a verified token, or nothing for a request without
    a token when [credentialsRequired] is false.  When the guard throws, the
    method throws the same and the handler is not run, whatever it is. *)
Theorem UseJwtAuth_method_guards_the_handler (options : JwtOptions) (req : Request)
    (handler : Request -> option Payload -> Outcome Result) :
  (forall p, verified jwt_verify req options p ->
     UseJwtAuth_method jwt_verify options handler req = handler req (Some p)) /\
  (extractToken req (extractors options) = Return Null ->
   credentialsRequired options = Some false ->
     UseJwtAuth_method jwt_verify options handler req = handler req None) /\
  (forall t, canActivate jwt_verify options req = Throw t ->
     forall handler' : Request -> option Payload -> Outcome Result,
       UseJwtAuth_method jwt_verify options handler' req = Throw t) /\
  (forall r, UseJwtAuth_method jwt_verify options handler req = Return r ->
     exists u, canActivate jwt_verify options req = Return (true, u) /\
               handler req u = Return r).
Proof.
  unfold UseJwtAuth_method, mbind, Outcome_bind.
  destruct (adapters_table jwt_verify req options)
    as [(t & Hr & Hn & He & Hf & Hc) | [(Hx & Hq & Hn & He & Hf & Hc)
       | [(Hx & Hq & Hn & He & Hf & Hc) | (q & Hq & Hn & He & Hf & Hc)]]];
    rewrite Hc; unfold credentialsRequired_or_default in *.
  - repeat apply conj.
    + intros p (token & Hx & Ht & Hv).
      destruct Hr as [Hx' | (token' & Hx' & Ht' & Hv')]; [congruence |].
      unfold verifyToken, try_catch, tokenOptions in Hv'. simpl in Hv'.
      assert (token' = token) as -> by congruence. rewrite Hv in Hv'. discriminate.
    + intros Hx Hc'. destruct Hr as [Hx' | (token' & Hx' & Ht' & Hv')]; [congruence |].
      rewrite Hx in Hx'. injection Hx' as <-. discriminate.
    + destruct t; intros t' [= <-]; reflexivity.
    + destruct t; discriminate.
  - repeat apply conj; try discriminate.
    + intros p (token & Hx' & Ht & _). rewrite Hx in Hx'. injection Hx' as <-. discriminate.
    + intros _ Hc'. rewrite Hc' in Hq. discriminate.
    + intros t [= <-]. reflexivity.
  - repeat apply conj; try discriminate.
    + intros p (token & Hx' & Ht & _). rewrite Hx in Hx'. injection Hx' as <-. discriminate.
    + reflexivity.
    + intros r Hr. eauto.
  - repeat apply conj; try discriminate.
    + intros p (token & Hx & Ht & Hv). destruct Hq as (token' & Hx' & Ht' & Hv').
      assert (token' = token) as -> by congruence. simpl. congruence.
    + intros Hx. destruct Hq as (token' & Hx' & Ht' & _).
      rewrite Hx in Hx'. injection Hx' as <-. discriminate.
    + intros r Hr. eauto.
Qed.



End SigningFacts.

(* ===================================================================== *)
(** * The properties at concrete requests *)
(* ===================================================================== *)

(** The test "should throw InvalidTokenError for tokens with invalid
    signature" of tests/core/token.test.ts. *)
Lemma verifyToken_invalid_signature :
  verifyToken (mock_verify (Throw (new_jwt_JsonWebTokenError "invalid signature")))
    (Str "valid.mock.token") (mkVerifyOptions "test-secret" None)
  = (Throw (ThrownError new_InvalidTokenError) : Outcome JSON).
Proof.
  refine (proj1 (proj2 (verifyToken_classifies_failure
            (mock_verify (Throw (new_jwt_JsonWebTokenError "invalid signature")))
            (Str "valid.mock.token") (mkVerifyOptions "test-secret" None)
            (new_jwt_JsonWebTokenError "invalid signature") eq_refl)) _ _ _).
  - unfold reports_expiry. simpl. discriminate.
  - reflexivity.
  - apply includes_contains. reflexivity.
Defined.

(** A request with a cookie and a bearer header but no query: the query
    extractor finds nothing, the cookie extractor answers, and the bearer
    extractor is not called. *)
Lemma extractToken_second_of_three :
  let req := IncomingMessage (Some "/path")
               {[ "host" := "example.com"; "cookie" := "token=fromCookie";
                  "authorization" := "Bearer fromBearer" ]} in
  let l := [fromQueryParameter WHATWG.URL_searchParams "token"; fromCookie "token";
            fromAuthHeaderAsBearerToken] in
  extractToken req (Some l) = Return (Str "fromCookie") /\ fst (try_extractors req l) = 2.
Proof.
  intros req l.
  refine (proj1 (proj2 (extractToken_first_match req))
            [fromQueryParameter WHATWG.URL_searchParams "token"]
            [fromAuthHeaderAsBearerToken] (fromCookie "token") (Str "fromCookie") _ _ _).
  - constructor; [| constructor]. exists Null. split; reflexivity.
  - reflexivity.
  - reflexivity.
Defined.

(** The example of the specification, [authorization: Bearer abc123], with
    the header name spelled [Authorization] on the wire. *)
Lemma bearer_header_abc123 :
  fromAuthHeaderAsBearerToken
    (IncomingMessage None (Node_headers [("Host", "example.com"); ("Authorization", "Bearer abc123")]))
  = Return (Str "abc123").
Proof.
  refine (proj1 (proj2 bearer_header_extractor)
            (IncomingMessage None
               (Node_headers [("Host", "example.com"); ("Authorization", "Bearer abc123")]))
            "Bearer" "abc123" _ _ _ _); reflexivity.
Defined.

(** C7 (counterexample). A plain request object that holds the header under
    the key [Authorization] gives [null]; and the header value [Bearer ],
    with nothing after the space, gives the empty string and not [null]. *)
Lemma fromAuthHeaderAsBearerToken_exact_key_and_empty_part :
  fromAuthHeaderAsBearerToken
    (RequestLike (Some {[ "Authorization" := Str "Bearer abc123" ]}) None None)
  = Return Null /\
  fromAuthHeaderAsBearerToken (IncomingMessage None {[ "authorization" := "Bearer " ]})
  = Return (Str "").
Proof. split; reflexivity. Qed.

(** The test "should allow missing tokens when not required" of
    tests/middleware/node.test.ts. *)
Lemma verifyRequest_missing_token_not_required :
  verifyRequest (mock_verify (Return test_payload)) (RequestLike (Some ∅) None None)
    (mkJwtOptions "test-secret" None (Some false) None)
  = Return {| isAuthenticated := true; payload := None; error := None |}.
Proof.
  refine (verifyRequest_passes_through_unauthenticated (mock_verify (Return test_payload))
            (RequestLike (Some ∅) None None)
            (mkJwtOptions "test-secret" None (Some false) None) _ _); reflexivity.
Defined.

(** The test "should handle missing tokens when required" of
    tests/middleware/node.test.ts. *)
Lemma verifyRequest_missing_token_required :
  verifyRequest (mock_verify (Return test_payload)) (RequestLike (Some ∅) None None) test_options
  = Return {| isAuthenticated := false; payload := None;
              error := Some {| code := MISSING;
                               error_message := "No authorization token was found" |} |}.
Proof.
  refine (proj1 (proj1 (adapters_without_token (mock_verify (Return test_payload))
                          (RequestLike (Some ∅) None None) test_options _) _)).
  - reflexivity.
  - left. reflexivity.
Defined.

(** C4 (counterexample). The answer of the Express middleware to a request
    without a token has the member [error] with the message, and no member
    whose value is the code TOKEN_MISSING. *)
Lemma expressMiddleware_missing_token_carries_no_code :
  res_body (expressMiddleware (mock_verify (Return test_payload)) test_options
              (RequestLike (Some ∅) None None) express_init)
    = Some [("error", "No authorization token was found")] /\
  json_has_value [("error", "No authorization token was found")]
    (TokenErrorCode_value MISSING) = false.
Proof. split; reflexivity. Qed.

(** A token the primitive rejects as expired: [verifyRequest] returns. *)
Lemma verifyRequest_expired_token_returns :
  exists r : @VerifyRequestResult JSON,
    verifyRequest (mock_verify (Throw (new_jwt_TokenExpiredError "jwt expired")))
      (bearer_request "expired.mock.token") test_options = Return r.
Proof.
  refine (proj2 (proj2 (proj2 (verifyRequest_returns_or_rethrows
            (mock_verify (Throw (new_jwt_TokenExpiredError "jwt expired")))
            (bearer_request "expired.mock.token") test_options))) _ _).
  - exists (Str "expired.mock.token"). reflexivity.
  - intros token error H. injection H as <-. reflexivity.
Defined.

(** C5 (counterexample). With the primitive of the test "should handle
    unknown jwt errors", which throws [new Error('Unknown error')],
    [verifyRequest] throws that error; and with the query extractor on a
    request whose target is [//], it throws the URL constructor's
    [TypeError]. *)
Lemma verifyRequest_throws_unknown_error :
  verifyRequest (mock_verify (Throw Unknown_error : Outcome JSON))
    (bearer_request "valid.mock.token") test_options
  = Throw Unknown_error /\
  verifyRequest (mock_verify (Return test_payload))
    (IncomingMessage (Some "//") {[ "host" := "example.com" ]})
    (mkJwtOptions "test-secret" None None
       (Some [fromQueryParameter WHATWG.URL_searchParams "token"]))
  = Throw WHATWG.Invalid_URL.
Proof. split; reflexivity. Qed.

(** An unknown error of the primitive in the Express middleware. *)
Lemma expressMiddleware_unknown_error_is_401 :
  expressMiddleware (mock_verify (Throw Unknown_error : Outcome JSON)) test_options
    (bearer_request "valid.mock.token") express_init
  = res_status_json 401 [("error", "Unknown error")] express_init.
Proof.
  refine (proj1 (proj1 (expressMiddleware_answers_401_for_every_Error
            (mock_verify (Throw Unknown_error : Outcome JSON))
            (bearer_request "valid.mock.token") test_options express_init)
            (mkError (OtherError "Error") "Unknown error") _)).
  right. exists (Str "valid.mock.token"). repeat split; reflexivity.
Defined.

(** C6 (counterexample). The error [new Error('Unknown error')] of the
    primitive is none of the classified kinds, and the Express middleware
    answers 401 with its message instead of calling [next] with it. *)
Lemma expressMiddleware_converts_unclassified_error :
  errorMap_entry Unknown_error = None /\
  expressMiddleware (mock_verify (Throw Unknown_error : Outcome JSON)) test_options
    (bearer_request "valid.mock.token") express_init
  = {| req_user := None; res_statusCode := Some 401;
       res_body := Some [("error", "Unknown error")]; next_calls := [] |}.
Proof. split; reflexivity. Qed.


(** The empty bearer token of [authorization: Bearer ] is skipped. *)
Lemma extractToken_skips_empty_bearer :
  extractToken (IncomingMessage None {[ "authorization" := "Bearer " ]})
    (Some [fromAuthHeaderAsBearerToken])
  = Return Null.
Proof.
  refine (proj1 (proj2 (empty_string_is_no_token WHATWG.URL_searchParams))
            (IncomingMessage None {[ "authorization" := "Bearer " ]})
            fromAuthHeaderAsBearerToken _).
  reflexivity.
Defined.

(** C9 (counterexample). For the request target [/path?token=] the query
    extractor returns the empty string, not [null]. *)
Lemma fromQueryParameter_returns_empty_string :
  fromQueryParameter WHATWG.URL_searchParams "token"
    (IncomingMessage (Some "/path?token=") {[ "host" := "example.com" ]})
  = Return (Str "").
Proof. reflexivity. Qed.

(** The test "should handle multiple cookies" of tests/core/extractors.test.ts. *)
Lemma fromCookie_multiple_cookies :
  fromCookie "token" (IncomingMessage None {[ "cookie" := "session=abc; token=xyz; other=123" ]})
  = Return (Str "xyz").
Proof.
  refine (fromCookie_agrees_on_single_equals_segments "token" None
            {[ "cookie" := "session=abc; token=xyz; other=123" ]}
            "session=abc; token=xyz; other=123" _ _ _); [reflexivity | | reflexivity].
  let segments := eval vm_compute in (JS.split ";" "session=abc; token=xyz; other=123") in
  change (JS.split ";" "session=abc; token=xyz; other=123") with segments.
  repeat (constructor; [vm_compute; reflexivity |]). constructor.
Defined.

(** The test "should verify valid tokens" of tests/middleware/node.test.ts. *)
Lemma verifyRequest_valid_token :
  verifyRequest (mock_verify (Return test_payload)) (bearer_request "valid.mock.token")
    test_options
  = Return {| isAuthenticated := true; payload := Some test_payload; error := None |}.
Proof.
  exact (proj1 (adapters_attach_verified_payload (mock_verify (Return test_payload))
                  (bearer_request "valid.mock.token") test_options
                  (Str "valid.mock.token") test_payload eq_refl eq_refl eq_refl)).
Defined.

(** The test "should reject expired tokens" of tests/middleware/fastify.test.ts. *)
Lemma fastify_onRequest_expired_token :
  fastify_onRequest (mock_verify (Throw (new_jwt_TokenExpiredError "jwt expired") : Outcome JSON))
    test_options (bearer_request "expired.mock.token")
  = Throw (ThrownError (new_HttpError 401 "Token has expired")).
Proof.
  refine (proj1 (fastify_and_nest_on_exceptions
            (mock_verify (Throw (new_jwt_TokenExpiredError "jwt expired") : Outcome JSON))
            (bearer_request "expired.mock.token") test_options
            (ThrownError new_TokenExpiredError) _)).
  right. exists (Str "expired.mock.token"). repeat split; reflexivity.
Defined.

(** ** The further properties at concrete requests *)

(** The error [verifyToken] throws for an expired token is not the
    primitive's. *)
Lemma verifyToken_expired_is_not_a_jwt_error :
  instanceof_jwt_JsonWebTokenError (ThrownError new_TokenExpiredError) = false.
Proof.
  exact (proj1 (proj2 (verifyToken_succeeds_with_the_primitive
           (mock_verify (Throw (new_jwt_TokenExpiredError "jwt expired") : Outcome JSON))
           (Str "expired.mock.token") (mkVerifyOptions "test-secret" None)))
           (ThrownError new_TokenExpiredError) eq_refl).
Defined.

(** The payload the Fastify hook attaches in the test "should authenticate
    valid tokens" is the primitive's answer to the bearer token. *)
Lemma fastify_payload_is_verified :
  verified (mock_verify (Return test_payload)) (bearer_request "valid.mock.token")
    test_options test_payload.
Proof.
  exact (proj1 (proj2 (proj2 (adapters_attach_only_verified_payloads
           (mock_verify (Return test_payload)) (bearer_request "valid.mock.token")
           test_options test_payload))) eq_refl).
Defined.

(** The Express middleware lets the request of "should authenticate valid
    tokens" pass as [verifyRequest] does. *)
Lemma expressMiddleware_decides_like_verifyRequest :
  expressMiddleware (mock_verify (Return test_payload)) test_options
    (bearer_request "valid.mock.token") express_init
  = {| req_user := Some test_payload; res_statusCode := None; res_body := None;
       next_calls := [None] |}.
Proof.
  exact (proj1 (proj1 (proj1 (adapters_take_the_same_decision
           (mock_verify (Return test_payload)) (bearer_request "valid.mock.token")
           test_options) (Some test_payload))) eq_refl).
Defined.

(** The tests "should reject expired tokens" of the four adapters. *)
Lemma adapters_expired_token_message :
  expressMiddleware (mock_verify (Throw (new_jwt_TokenExpiredError "jwt expired") : Outcome JSON))
    test_options (bearer_request "expired.mock.token") express_init
  = res_status_json 401 [("error", "Token has expired")] express_init /\
  fastify_onRequest (mock_verify (Throw (new_jwt_TokenExpiredError "jwt expired") : Outcome JSON))
    test_options (bearer_request "expired.mock.token")
  = Throw (ThrownError (new_HttpError 401 "Token has expired")) /\
  exists e,
    canActivate (mock_verify (Throw (new_jwt_TokenExpiredError "jwt expired") : Outcome JSON))
      test_options (bearer_request "expired.mock.token") = Throw (ThrownError e) /\
    message e = "Token has expired".
Proof.
  refine (adapters_report_the_same_message
            (mock_verify (Throw (new_jwt_TokenExpiredError "jwt expired") : Outcome JSON))
            (bearer_request "expired.mock.token") test_options _ _
            {| isAuthenticated := false; payload := None;
               error := Some {| code := EXPIRED; error_message := "Token has expired" |} |}
            {| code := EXPIRED; error_message := "Token has expired" |} eq_refl eq_refl).
  - exists (Str "expired.mock.token"). reflexivity.
  - intros token error H. injection H as <-. reflexivity.
Defined.

(** A request with a bearer token is treated alike with
    [credentialsRequired: false]. *)
Lemma verifyRequest_token_found_not_required :
  verifyRequest (mock_verify (Return test_payload))
    (bearer_request "valid.mock.token") (with_credentialsRequired (Some false) test_options)
  = verifyRequest (mock_verify (Return test_payload))
      (bearer_request "valid.mock.token") test_options.
Proof.
  refine (proj1 (credentialsRequired_matters_only_without_token
            (mock_verify (Return test_payload)) (bearer_request "valid.mock.token")
            test_options (Some false) _)).
  vm_compute. discriminate.
Defined.

(** The query extractor throws on the request target [//] before the bearer
    extractor, which would find a token, is called. *)
Lemma extractToken_stops_at_the_exception :
  let req := IncomingMessage (Some "//")
               {[ "host" := "example.com"; "authorization" := "Bearer fromBearer" ]} in
  let l := [fromCookie "token"; fromQueryParameter WHATWG.URL_searchParams "token";
            fromAuthHeaderAsBearerToken] in
  extractToken req (Some l) = Throw WHATWG.Invalid_URL /\ fst (try_extractors req l) = 2.
Proof.
  intros req l.
  refine (proj2 (extractToken_over_concatenation req) [fromCookie "token"]
            [fromAuthHeaderAsBearerToken] (fromQueryParameter WHATWG.URL_searchParams "token")
            WHATWG.Invalid_URL _ _).
  - constructor; [| constructor]. exists Null. split; reflexivity.
  - reflexivity.
Defined.

(** The token of [authorization: Bearer abc123] has no space. *)
Lemma bearer_token_has_no_space : JS.lacks " " "abc123" = true.
Proof.
  exact (proj1 extracted_tokens_are_free_of_separators
           (IncomingMessage None {[ "authorization" := "Bearer abc123" ]}) "abc123" eq_refl).
Defined.

(** Of two cookies named [token] the second is returned. *)
Lemma fromCookie_second_of_two :
  fromCookie "token" (IncomingMessage None {[ "cookie" := "token=first; other=1; token=second" ]})
  = Return (Str "second").
Proof.
  exact (fromCookie_last_segment_wins "token" None
           {[ "cookie" := "token=first; other=1; token=second" ]}
           "token=first; other=1; token=second" eq_refl eq_refl).
Defined.

(** The test "should handle Error signing failures" of
    tests/core/token.test.ts. *)
Lemma signToken_signing_failed :
  error_class (new_Error "Failed to sign token: Signing failed") = OtherError "Error" /\
  JS.startsWith (message (new_Error "Failed to sign token: Signing failed"))
    "Failed to sign token: " = true /\
  exists e',
    mock_sign (Throw (ThrownError (new_Error "Signing failed"))) test_payload "test-secret"
      (default (Duration "1h") None) (default HS256 None) = Throw (ThrownError e') /\
    message (new_Error "Failed to sign token: Signing failed")
      = "Failed to sign token: " +:+ message e'.
Proof.
  exact (proj1 (proj2 (signToken_wraps_failures
           (mock_sign (Throw (ThrownError (new_Error "Signing failed"))))
           test_payload (mkSignOptions "test-secret" None None)))
           (new_Error "Failed to sign token: Signing failed") eq_refl).
Defined.

(** Signing and verifying with the options left out on both sides. *)
Lemma signToken_then_verifyToken_defaults :
  exists q, verifyToken toy_verify (Str "t.alice") (mkVerifyOptions "s" None) = Return q /\
            "alice" = q.
Proof.
  refine (signToken_then_verifyToken toy_sign toy_verify (fun _ => True) eq
            "alice" (mkSignOptions "s" None None) (mkVerifyOptions "s" None) "t.alice"
            _ I eq_refl _ eq_refl).
  - intros p secret expiresIn algorithm allowed tok _ _ H. injection H as <-.
    exists p. split; reflexivity.
  - simpl. set_solver.
Defined.

(** The test "should work as a method decorator" of
    tests/middleware/nest.test.ts, with a handler that returns the user it
    sees. *)
Lemma UseJwtAuth_method_valid_token :
  UseJwtAuth_method (mock_verify (Return test_payload)) test_options
    (fun _ user => Return user) (bearer_request "valid.mock.token")
  = Return (Some test_payload).
Proof.
  refine (proj1 (UseJwtAuth_method_guards_the_handler (mock_verify (Return test_payload))
            test_options (bearer_request "valid.mock.token") (fun _ user => Return user))
            test_payload _).
  exists (Str "valid.mock.token"). repeat split; reflexivity.
Defined.


(** A header without a cookie named [constructor], asked for that name. *)
Lemma fromCookie_constructor :
  exists member,
    fromCookie "constructor" (IncomingMessage None {[ "cookie" := "session=abc" ]})
      = Return (Obj member) /\
    extractToken (IncomingMessage None {[ "cookie" := "session=abc" ]})
      (Some [fromCookie "constructor"]) = Return (Obj member).
Proof.
  exact (fromCookie_finds_inherited_members "constructor" None
           {[ "cookie" := "session=abc" ]} "session=abc" eq_refl eq_refl
           (or_intror eq_refl)).
Defined.
